(** * relenv.runtime: the relocation layer run at interpreter start-up

    A shallow embedding of [src/relenv/runtime.py] and the properties of
    its root resolver, its patch functions, its import interceptor
    ([RelenvImporter]) and its [bootstrap] routine.

    Python values are modelled as the code uses them: [str] as [string]
    (ASCII code units), [os.environ] and [sys.modules] as finite maps with
    string keys, [pathlib] paths as an anchor and a list of components,
    the mutable interpreter state by explicit state passing, and raised
    exceptions by an outcome type that keeps the state reached. *)

From Stdlib Require Import Ascii.
From Stdlib Require String.
From stdpp Require Import gmap strings list pretty.

Local Open Scope stdpp_scope.

(** ** Python [str] operations used by the module *)

Module PyStr.

(** [bool(s)] for a string: the empty string is falsy. *)
Definition truthy (s : string) : bool :=
  match s with EmptyString => false | String _ _ => true end.

(** [bool(d.get(k))] for the result of a dictionary lookup. *)
Definition truthy_opt (o : option string) : bool :=
  match o with Some s => truthy s | None => false end.

(** [s.startswith(pre)] *)
Definition startswith (s pre : string) : bool := String.prefix pre s.

Definition rev_string (l : list ascii) : string :=
  String.string_of_list_ascii (rev l).

(** [s.split(sep, maxsplit)] for a non-empty separator, scanning left to
    right.  [skip] counts the characters of a separator just matched that
    remain to be passed over, [cur] is the current field in reverse, and
    [budget] is the number of splits left ([None]: unbounded). *)
Fixpoint split_go (sep : string) (budget : option nat) (skip : nat)
    (cur : list ascii) (s : string) : list string :=
  match s with
  | EmptyString => [rev_string cur]
  | String c s' =>
      match skip with
      | S k => split_go sep budget k cur s'
      | O =>
          let more := match budget with Some O => false | _ => true end in
          if more && String.prefix sep s then
            rev_string cur ::
              split_go sep (pred <$> budget) (String.length sep - 1) [] s'
          else split_go sep budget O (c :: cur) s'
      end
  end.

(** [s.split(sep)] *)
Definition split (sep s : string) : list string :=
  split_go sep None 0 [] s.

(** [s.split(sep, n)] *)
Definition split_max (sep : string) (n : nat) (s : string) : list string :=
  split_go sep (Some n) 0 [] s.

(** The characters [str.strip()] removes, within ASCII: tab, line feed,
    vertical tab, form feed, carriage return, the four separators
    0x1c-0x1f and the space. *)
Definition is_space (c : ascii) : bool :=
  let n := nat_of_ascii c in
  ((9 <=? n) && (n <=? 13)) || ((28 <=? n) && (n <=? 32)).

Fixpoint lstrip_by (f : ascii → bool) (s : string) : string :=
  match s with
  | EmptyString => EmptyString
  | String c s' => if f c then lstrip_by f s' else s
  end.

Fixpoint rstrip_by (f : ascii → bool) (s : string) : string :=
  match s with
  | EmptyString => EmptyString
  | String c s' =>
      match rstrip_by f s' with
      | EmptyString => if f c then EmptyString else String c EmptyString
      | r => String c r
      end
  end.

Definition strip_by (f : ascii → bool) (s : string) : string :=
  rstrip_by f (lstrip_by f s).

(** [s.strip()] *)
Definition strip (s : string) : string := strip_by is_space s.

Fixpoint mem_char (c : ascii) (chars : string) : bool :=
  match chars with
  | EmptyString => false
  | String d r => Ascii.eqb c d || mem_char c r
  end.

(** [s.strip(chars)] *)
Definition strip_chars (chars s : string) : string :=
  strip_by (fun c => mem_char c chars) s.





(** [sub in s] *)
Fixpoint contains (sub s : string) : bool :=
  String.prefix sub s ||
  match s with
  | EmptyString => false
  | String _ s' => contains sub s'
  end.

(** The lines [fp.readlines()] yields for a text file of content [s]:
    each line keeps its terminating line feed. *)
Fixpoint readlines_go (cur : list ascii) (s : string) : list string :=
  match s with
  | EmptyString => match cur with [] => [] | _ => [rev_string cur] end
  | String c s' =>
      if Ascii.eqb c "010" then rev_string (c :: cur) :: readlines_go [] s'
      else readlines_go (c :: cur) s'
  end.

Definition readlines (s : string) : list string := readlines_go [] s.

(** [str(x)] inside an f-string for a value that may be [None]. *)
Definition format_opt (o : option string) : string := default "None" o.

(** The one-character string holding a double quote. *)
Definition dquote : string := String "034" EmptyString.

End PyStr.

(** ** [pathlib] paths

    A path is its anchor (empty for a relative path) and its components,
    as [PurePath.anchor] and [PurePath.parts] without the anchor.  The
    operations the module uses on both platforms ([parent], joining a
    relative name) act on this representation alone; parsing from a
    string follows the POSIX flavour, and rendering to a string has both
    flavours ([str] joins with a slash, [str_windows] with a
    backslash). *)

Module Pathlib.

Record Path := mkPath { anchor : string; parts : list string }.

#[global] Instance Path_eq_dec : EqDecision Path.
Proof. solve_decision. Defined.

(** [p.parent]: drops the last component; a path without components
    is its own parent. *)
Definition parent (p : Path) : Path :=
  match parts p with
  | [] => p
  | _ => mkPath (anchor p) (removelast (parts p))
  end.

(** [p / q] for a path [q]: an anchored right operand replaces the left. *)
Definition joinpath (p q : Path) : Path :=
  if PyStr.truthy (anchor q) then q
  else mkPath (anchor p) (parts p ++ parts q).

Definition keep_part (s : string) : bool :=
  negb (String.eqb s "" || String.eqb s ".").

(** [pathlib.PurePosixPath(s)]: empty and [.] components are dropped;
    exactly two leading slashes are kept as the anchor [//]. *)
Definition of_str (s : string) : Path :=
  let a :=
    if PyStr.startswith s "//" && negb (PyStr.startswith s "///") then "//"
    else if PyStr.startswith s "/" then "/"
    else "" in
  mkPath a (filter (fun x => Is_true (keep_part x)) (PyStr.split "/" s)).

(** [p / s] for a string [s]. *)
Definition join (p : Path) (s : string) : Path := joinpath p (of_str s).

Fixpoint concat_with (sep : string) (l : list string) : string :=
  match l with
  | [] => ""
  | [x] => x
  | x :: r => x +:+ sep +:+ concat_with sep r
  end.

(** [str(p)] *)
Definition str (p : Path) : string :=
  match anchor p, parts p with
  | EmptyString, [] => "."
  | a, l => a +:+ concat_with "/" l
  end.

(** [str(p)] in the Windows flavour: the anchor, then the components
    joined with a backslash. *)
Definition str_windows (p : Path) : string :=
  match anchor p, parts p with
  | EmptyString, [] => "."
  | a, l => a +:+ concat_with "\" l
  end.

(** [p.name] *)
Definition name (p : Path) : string := List.last (parts p) "".






End Pathlib.

Abbreviation Path := Pathlib.Path.
Infix "</>" := Pathlib.join (at level 40, left associativity).

(** ** The interpreter state and the machine around it *)

(** What the code observes of the machine outside the interpreter: the
    file system (existence, directories and their entries, the decoded
    text of a file, [None] when it cannot be opened), the
    [relocate.is_elf] probe (it reads the file), [Path.resolve] from a
    working directory, the executable search of [shutil.which] and the
    result of running a command with [subprocess.run] (return code,
    standard output, standard error).  The file-system queries take the
    path joined to the working directory. *)
Record World := mkWorld {
  w_exists : Path → bool;
  w_is_dir : Path → bool;
  w_is_elf : Path → bool;
  w_read : Path → option string;
  w_listdir : Path → list string;
  w_resolve : Path → Path → Path;
  w_which : string → option string;
  w_run : list string → Z * string * string
}.

(** The six class-level flags of [RelenvImporter]. *)
Record Importer := mkImporter {
  loading_pip_scripts : bool;
  loading_sysconfig_data : bool;
  loading_sysconfig : bool;
  loading_distutils : bool;
  loading_op_wheel : bool;
  loading_op_legacy : bool
}.

(** Attribute values of a module object: a function or class of the host
    module itself, one of the closures the wrappers of this module return
    (each holding the value it wraps), [_build_shebang], a boolean, or a
    host function of no argument that returns a scheme name.  The
    attributes of a class are stored in its module under dotted names. *)
Inductive value :=
| HostFn (qualname : string)
| HostClass (qualname : string)
| GetConfigVarWrapped (func : value)
| GetPathsWrapped (func : value) (default_scheme : string)
| FinalizeOptionsWrapped (func : value)
| InstallWheelWrapped (func : value)
| InstallLegacyWrapped (func : value)
| BuildShebang
| VBool (b : bool)
| VScheme (s : string).

#[global] Instance value_eq_dec : EqDecision value.
Proof. solve_decision. Defined.

(** Entries of [sys.meta_path]. *)
Inductive finder := RelenvFinder | HostFinder (name : string).

#[global] Instance finder_eq_dec : EqDecision finder.
Proof. solve_decision. Defined.

(** Calls that leave the interpreter, in the order they happen. *)
Inductive event :=
| EvPrint (line : string)
| EvHandleElf (file libdir : Path) (write : bool) (root : Path)
| EvSubprocess (argv : list string).

(** The exceptions the module can let escape; [CalleeError] stands for
    one raised inside a host function. *)
Inductive exn :=
| ValueError
| IndexError
| AttributeError (attr : string)
| ModuleNotFoundError (name : string)
| UnboundLocalError (var : string)
| OSError (p : Path)
| TypeError
| CalleeError.

(** The mutable state of the process.  [modules] holds the module objects
    by the name they were created under, and [sys_modules] maps an import
    name to the object registered for it, so that two names can refer to
    one object.  [importer] is the [RelenvImporter] instance on
    [sys.meta_path]. *)
Record State := mkState {
  environ : gmap string string;
  cwd : Path;
  world : World;
  sys_prefix : string;
  sys_exec_prefix : string;
  sys_path : list string;
  sys_meta_path : list finder;
  sys_modules : gmap string string;
  modules : gmap string (gmap string value);
  importer : Importer;
  trace : list event
}.

(** Constants of the interpreter and of [relenv.common]: [sys.platform],
    the first two fields of [sys.version_info], [MODULE_DIR], the
    [format_shebang] helper, and the module the default import mechanism
    builds for a name ([None]: there is no such module). *)
Record Host := mkHost {
  sys_platform : string;
  version_info : nat * nat;
  MODULE_DIR : Path;
  format_shebang : string → string;
  real_module : string → option (gmap string value)
}.

(** *** Outcomes: a state and exception monad

    A computation returns a value or raises an exception, in either case
    with the state it reached; [NoFuel] marks a run cut short by the bound
    on nested imports (only [load_module] produces it). *)

Inductive outcome (A : Type) :=
| Ret (a : A) (s : State)
| Raise (e : exn) (s : State)
| NoFuel.
Arguments Ret {A} a s.
Arguments Raise {A} e s.
Arguments NoFuel {A}.

Definition M (A : Type) : Type := State → outcome A.

Definition ret {A} (a : A) : M A := fun s => Ret a s.
Definition raise {A} (e : exn) : M A := fun s => Raise e s.
Definition bind {A B} (m : M A) (k : A → M B) : M B :=
  fun s =>
    match m s with
    | Ret a s' => k a s'
    | Raise e s' => Raise e s'
    | NoFuel => NoFuel
    end.
Definition get : M State := fun s => Ret s s.
Definition modify (f : State → State) : M unit := fun s => Ret tt (f s).

Notation "'let*' x ':=' m 'in' k" := (bind m (fun x => k))
  (at level 10, x pattern, m at level 100, k at level 200).
Notation "m ';;;' k" := (bind m (fun _ => k))
  (at level 100, k at level 200, right associativity).

(** The state an outcome ends in, when it ends. *)
Definition final_state {A} (o : outcome A) : option State :=
  match o with
  | Ret _ s => Some s
  | Raise _ s => Some s
  | NoFuel => None
  end.

Definition returns {A} (o : outcome A) : Prop :=
  match o with Ret _ _ => True | _ => False end.

Definition set_environ (f : gmap string string → gmap string string) (s : State) :=
  mkState (f (environ s)) (cwd s) (world s) (sys_prefix s) (sys_exec_prefix s)
    (sys_path s) (sys_meta_path s) (sys_modules s) (modules s) (importer s)
    (trace s).
Definition set_cwd (p : Path) (s : State) :=
  mkState (environ s) p (world s) (sys_prefix s) (sys_exec_prefix s)
    (sys_path s) (sys_meta_path s) (sys_modules s) (modules s) (importer s)
    (trace s).
Definition set_sys_prefix (x : string) (s : State) :=
  mkState (environ s) (cwd s) (world s) x (sys_exec_prefix s)
    (sys_path s) (sys_meta_path s) (sys_modules s) (modules s) (importer s)
    (trace s).
Definition set_sys_exec_prefix (x : string) (s : State) :=
  mkState (environ s) (cwd s) (world s) (sys_prefix s) x
    (sys_path s) (sys_meta_path s) (sys_modules s) (modules s) (importer s)
    (trace s).
Definition set_sys_path (x : list string) (s : State) :=
  mkState (environ s) (cwd s) (world s) (sys_prefix s) (sys_exec_prefix s)
    x (sys_meta_path s) (sys_modules s) (modules s) (importer s) (trace s).
Definition set_sys_meta_path (x : list finder) (s : State) :=
  mkState (environ s) (cwd s) (world s) (sys_prefix s) (sys_exec_prefix s)
    (sys_path s) x (sys_modules s) (modules s) (importer s) (trace s).
Definition set_sys_modules (f : gmap string string → gmap string string) (s : State) :=
  mkState (environ s) (cwd s) (world s) (sys_prefix s) (sys_exec_prefix s)
    (sys_path s) (sys_meta_path s) (f (sys_modules s)) (modules s) (importer s)
    (trace s).
Definition set_modules
    (f : gmap string (gmap string value) → gmap string (gmap string value))
    (s : State) :=
  mkState (environ s) (cwd s) (world s) (sys_prefix s) (sys_exec_prefix s)
    (sys_path s) (sys_meta_path s) (sys_modules s) (f (modules s)) (importer s)
    (trace s).
Definition set_importer (f : Importer → Importer) (s : State) :=
  mkState (environ s) (cwd s) (world s) (sys_prefix s) (sys_exec_prefix s)
    (sys_path s) (sys_meta_path s) (sys_modules s) (modules s) (f (importer s))
    (trace s).
Definition emit (e : event) (s : State) :=
  mkState (environ s) (cwd s) (world s) (sys_prefix s) (sys_exec_prefix s)
    (sys_path s) (sys_meta_path s) (sys_modules s) (modules s) (importer s)
    (trace s ++ [e]).

(** ** The root resolver and the patch functions *)

(** [str.encode()]: on ASCII text the UTF-8 bytes are the code units. *)
Definition encode (s : string) : string := s.

Section Runtime.

Context (h : Host).

(** [get_major_version()]: ["{}.{}".format( *sys.version_info)]. *)
Definition get_major_version : string :=
  pretty (version_info h).1 +:+ "." +:+ pretty (version_info h).2.

(** [debug(string)]: prints when [RELENV_DEBUG] is truthy. *)
Definition debug (msg : string) : M unit :=
  let* s := get in
  if PyStr.truthy_opt (environ s !! "RELENV_DEBUG")
  then modify (emit (EvPrint msg))
  else ret tt.

(** [relenv_root()] *)
Definition relenv_root : Path :=
  if String.eqb (sys_platform h) "win32" then
    Pathlib.parent (Pathlib.parent (Pathlib.parent (MODULE_DIR h)))
  else
    Pathlib.parent
      (Pathlib.parent (Pathlib.parent (Pathlib.parent (MODULE_DIR h)))).

(** [str(p)] for a path of this process: [pathlib] renders it in the
    flavour of the platform. *)
Definition path_str (p : Path) : string :=
  if String.eqb (sys_platform h) "win32" then Pathlib.str_windows p
  else Pathlib.str p.

(** [_build_shebang( *args, **kwargs)] *)
Definition _build_shebang {A K : Type} (args : A) (kwargs : K) : M string :=
  debug "Relenv - _build_shebang" ;;;
  let* s := get in
  if String.eqb (sys_platform h) "win32" then
    if PyStr.truthy_opt (environ s !! "RELENV_PIP_DIR") then
      ret (encode "#!<launcher_dir>\Scripts\python.exe")
    else ret (encode "#!<launcher_dir>\python.exe")
  else
    if PyStr.truthy_opt (environ s !! "RELENV_PIP_DIR") then
      ret (encode (format_shebang h "/bin/python3"))
    else ret (encode (format_shebang h "/python3")).

Section ConfigVar.

(** The values the host accessor returns, and their [str()]. *)
Context {V : Type} (show : V → string).

(** What the wrapped accessor returns: a path of this module, or
    the host accessor's value. *)
Inductive config_value :=
| CfgPath (p : Path)
| CfgOrig (v : V).

(** [get_config_var_wrapper(func)], applied to [name]. *)
Definition get_config_var_wrapper (func : string → M V) (name : string)
    : M config_value :=
  if String.eqb name "BINDIR" then
    let* orig := func name in
    let* s := get in
    let val :=
      if PyStr.truthy_opt (environ s !! "RELENV_PIP_DIR")
      then relenv_root
      else relenv_root </> "Scripts" in
    debug ("get_config_var call " +:+ name +:+ " old: " +:+ show orig
           +:+ " new: " +:+ Pathlib.str val) ;;;
    ret (CfgPath val)
  else
    let* val := func name in
    debug ("get_config_var call " +:+ name +:+ " " +:+ show val) ;;;
    ret (CfgOrig val).

End ConfigVar.

(** [get_paths_wrapper(func, default_scheme)], applied to its three
    arguments ([None] for an argument left out). *)
Definition get_paths_wrapper {Vars : Type}
    (func : string → option Vars → bool → M (gmap string string))
    (default_scheme : string)
    (scheme : option string) (vars : option Vars) (expand : option bool)
    : M (gmap string string) :=
  let* paths := func (default default_scheme scheme) vars (default true expand) in
  let* s := get in
  match environ s !! "RELENV_PIP_DIR" with
  | Some _ =>
      let paths' := <["scripts" := path_str relenv_root]> paths in
      modify (set_sys_exec_prefix (path_str relenv_root)) ;;;
      ret paths'
  | None => ret paths
  end.

(** [finalize_options_wrapper(func)], applied to a [build_ext] command
    seen through its [include_dirs] list. *)
Definition finalize_options_wrapper
    (func : list string → M (list string)) (include_dirs : list string)
    : M (list string) :=
  let* dirs := func include_dirs in
  ret (dirs ++ [path_str relenv_root +:+ "/include"]).

(** [for x in l: body(x)] *)
Fixpoint for_each {A : Type} (l : list A) (body : A → M unit) : M unit :=
  match l with
  | [] => ret tt
  | x :: r => body x ;;; for_each r body
  end.

(** [open(p).read()] *)
Definition read_text (p : Path) : M string :=
  let* s := get in
  match w_read (world s) (Pathlib.joinpath (cwd s) p) with
  | Some txt => ret txt
  | None => raise (OSError p)
  end.

(** [os.chdir(p)] *)
Definition chdir (p : Path) : M unit :=
  let* s := get in
  let target := Pathlib.joinpath (cwd s) p in
  if w_is_dir (world s) target then modify (set_cwd target)
  else raise (OSError p).

(** [with pushd(new_dir): body]: the old directory is restored whether
    the body returns or raises. *)
Definition pushd {A : Type} (new_dir : Path) (body : M A) : M A :=
  let* s0 := get in
  let old_dir := cwd s0 in
  chdir new_dir ;;;
  fun s =>
    match body s with
    | Ret a s' => (chdir old_dir ;;; ret a) s'
    | Raise e s' => (chdir old_dir ;;; raise e) s'
    | NoFuel => NoFuel
    end.

(** The step both installer wrappers apply to one installed file: a file
    that is missing is reported and skipped, a file [relocate.is_elf]
    accepts is handed to [relocate.handle_elf]. *)
Definition relocate_file (plat file : Path) : M unit :=
  let* s := get in
  if negb (w_exists (world s) (Pathlib.joinpath (cwd s) file)) then
    debug ("Relenv - File not found " +:+ Pathlib.str file)
  else if w_is_elf (world s) (Pathlib.joinpath (cwd s) file) then
    debug ("Relenv - Found elf " +:+ Pathlib.str file) ;;;
    modify (emit (EvHandleElf (Pathlib.joinpath plat file)
                    (relenv_root </> "lib") true relenv_root))
  else ret tt.

(** The fields of pip's [Scheme] the wrappers read. *)
Record Scheme := mkScheme { platlib : string; purelib : string }.

(** The arguments of pip's [install_wheel]. *)
Record wheel_args := mkWheelArgs {
  wa_name : string;
  wa_wheel_path : string;
  wa_scheme : Scheme;
  wa_req_description : string;
  wa_pycompile : bool;
  wa_warn_script_location : bool;
  wa_direct_url : option string;
  wa_requested : bool
}.

(** [install_wheel_wrapper(func)], applied to its arguments.
    [parse_wheel] is pip's function of that name on the opened archive,
    seen through the metadata directory it returns. *)
Definition install_wheel_wrapper
    (parse_wheel : string → string → M string)
    (func : wheel_args → M unit) (a : wheel_args) : M unit :=
  let* info_dir := parse_wheel (wa_wheel_path a) (wa_name a) in
  func a ;;;
  let plat := Pathlib.of_str (platlib (wa_scheme a)) in
  let* record := read_text (plat </> info_dir </> "RECORD") in
  for_each (PyStr.readlines record) (fun line =>
    let file := plat </> default "" (head (PyStr.split_max "," 1 line)) in
    relocate_file plat file).

(** The arguments of pip's legacy [install]. *)
Record legacy_args := mkLegacyArgs {
  la_install_options : list string;
  la_global_options : list string;
  la_root : option string;
  la_home : option string;
  la_prefix : option string;
  la_use_user_site : bool;
  la_pycompile : bool;
  la_scheme : Scheme;
  la_setup_py_path : string;
  la_isolated : bool;
  la_req_name : string;
  la_build_env : string;
  la_unpacked_source_directory : string;
  la_req_description : string
}.

(** The loop over the lines of [PKG-INFO]; [version] and [name] are the
    two local variables, [None] until assigned. *)
Fixpoint scan_pkg_info (lines : list string) (version name : option string)
    : M (option string * option string) :=
  match lines with
  | [] => ret (version, name)
  | line :: rest =>
      let* (version, stop) :=
        if PyStr.startswith line "Version:" then
          match PyStr.split "Version: " line !! 1 with
          | Some v => ret (Some (PyStr.strip v), PyStr.truthy_opt name)
          | None => raise IndexError
          end
        else ret (version, false) in
      if (stop : bool) then ret (version, name) else
      let* (name, stop) :=
        if PyStr.startswith line "Name:" then
          match PyStr.split "Name: " line !! 1 with
          | Some v => ret (Some (PyStr.strip v), PyStr.truthy_opt version)
          | None => raise IndexError
          end
        else ret (name, false) in
      if (stop : bool) then ret (version, name)
      else scan_pkg_info rest version name
  end.

(** [path.name.startswith(f"{name}-{version}")] *)
Definition egg_info_matches (name version : option string) (path : Path) : bool :=
  PyStr.startswith (Pathlib.name path)
    (PyStr.format_opt name +:+ "-" +:+ PyStr.format_opt version).




End Runtime.

(** ** The import interceptor *)

Definition set_loading_pip_scripts (b : bool) (i : Importer) : Importer :=
  mkImporter b (loading_sysconfig_data i) (loading_sysconfig i)
    (loading_distutils i) (loading_op_wheel i) (loading_op_legacy i).
Definition set_loading_sysconfig (b : bool) (i : Importer) : Importer :=
  mkImporter (loading_pip_scripts i) (loading_sysconfig_data i) b
    (loading_distutils i) (loading_op_wheel i) (loading_op_legacy i).
Definition set_loading_distutils (b : bool) (i : Importer) : Importer :=
  mkImporter (loading_pip_scripts i) (loading_sysconfig_data i)
    (loading_sysconfig i) b (loading_op_wheel i) (loading_op_legacy i).
Definition set_loading_op_wheel (b : bool) (i : Importer) : Importer :=
  mkImporter (loading_pip_scripts i) (loading_sysconfig_data i)
    (loading_sysconfig i) (loading_distutils i) b (loading_op_legacy i).
Definition set_loading_op_legacy (b : bool) (i : Importer) : Importer :=
  mkImporter (loading_pip_scripts i) (loading_sysconfig_data i)
    (loading_sysconfig i) (loading_distutils i) (loading_op_wheel i) b.

(** A fresh [RelenvImporter()]: every flag has its class-level value. *)
Definition new_importer : Importer :=
  mkImporter false false false false false false.

(** [mod.attr] *)
Definition getattr (md attr : string) : M value :=
  let* s := get in
  match modules s !! md ≫= (.!! attr) with
  | Some v => ret v
  | None => raise (AttributeError attr)
  end.

(** [mod.attr = v] *)
Definition setattr (md attr : string) (v : value) : M unit :=
  modify (set_modules (alter (<[attr := v]>) md)).

(** Calling an attribute value with no argument. *)
Definition call0 (v : value) : M string :=
  match v with
  | VScheme s => ret s
  | VBool _ => raise TypeError
  | _ => raise CalleeError
  end.

(** [try: m except AttributeError: handler] *)
Definition except_AttributeError {A : Type} (m handler : M A) : M A :=
  fun s =>
    match m s with
    | Raise (AttributeError _) s' => handler s'
    | o => o
    end.

Section Interceptor.

Context (h : Host).

(** One arm of [find_module]: no match while the flag is set; otherwise
    the match is reported, the flag set, and the importer returned. *)
Definition probe (flag : Importer → bool) (upd : bool → Importer → Importer)
    (module_name : string) : M bool :=
  let* s := get in
  if flag (importer s) then ret false
  else
    debug ("RelenvImporter - match " +:+ module_name) ;;;
    modify (set_importer (upd true)) ;;;
    ret true.

(** [RelenvImporter.find_module(self, module_name, package_path=None)];
    [true] stands for the importer itself, [false] for [None]. *)
Definition find_module (module_name : string) : M bool :=
  if PyStr.startswith module_name "sysconfig" then
    probe loading_sysconfig set_loading_sysconfig module_name
  else if String.eqb module_name "pip._vendor.distlib.scripts" then
    probe loading_pip_scripts set_loading_pip_scripts module_name
  else if String.eqb module_name "distutils.command.build_ext" then
    probe loading_distutils set_loading_distutils module_name
  else if String.eqb module_name "pip._internal.operations.install.wheel" then
    probe loading_op_wheel set_loading_op_wheel module_name
  else if String.eqb module_name "pip._internal.operations.install.legacy" then
    probe loading_op_legacy set_loading_op_legacy module_name
  else ret false.

(** [importlib.import_module(name)] as the host runs it: a name already
    in [sys.modules] is answered from there; otherwise the importer, when
    it is on [sys.meta_path], is asked first, and a match is loaded by
    [loader] (its [load_module]); with no match the default mechanism
    builds the module and registers it.  The result is the module
    object.  The imports of parent packages and those the code of the
    module itself performs are left out. *)
Definition import_module (loader : string → M string) (name : string)
    : M string :=
  let* s := get in
  match sys_modules s !! name with
  | Some m => ret m
  | None =>
      let* hit :=
        if bool_decide (RelenvFinder ∈ sys_meta_path s)
        then find_module name else ret false in
      if (hit : bool) then loader name
      else
        match real_module h name with
        | Some obj =>
            modify (set_modules (<[name := obj]>)) ;;;
            modify (set_sys_modules (<[name := name]>)) ;;;
            ret name
        | None => raise (ModuleNotFoundError name)
        end
  end.

(** [RelenvImporter.load_module(self, name)].  The import it performs can
    come back to the importer, so the recursion is bounded by [fuel]. *)
Fixpoint load_module (fuel : nat) (name : string) : M string :=
  match fuel with
  | O => fun _ => NoFuel
  | S fuel' =>
      let import := import_module (load_module fuel') in
      let* md :=
        if PyStr.startswith name "sysconfig" then
          debug ("RelenvImporter - load_module " +:+ name) ;;;
          let* md := import "sysconfig" in
          let* f := getattr md "get_config_var" in
          setattr md "get_config_var" (GetConfigVarWrapped f) ;;;
          setattr md "_PIP_USE_SYSCONFIG" (VBool true) ;;;
          let* scheme :=
            except_AttributeError
              (let* g := getattr md "get_default_scheme" in call0 g)
              (let* g := getattr md "_get_default_scheme" in call0 g) in
          let* f := getattr md "get_paths" in
          setattr md "get_paths" (GetPathsWrapped f scheme) ;;;
          modify (set_importer (set_loading_sysconfig false)) ;;;
          ret (Some md)
        else if String.eqb name "pip._vendor.distlib.scripts" then
          debug ("RelenvImporter - load_module " +:+ name) ;;;
          let* md := import name in
          let* _ := getattr md "ScriptMaker" in
          setattr md "ScriptMaker._build_shebang" BuildShebang ;;;
          modify (set_importer (set_loading_pip_scripts false)) ;;;
          ret (Some md)
        else if String.eqb name "distutils.command.build_ext" then
          debug ("RelenvImporter - load_module " +:+ name) ;;;
          let* md := import name in
          let* _ := getattr md "build_ext" in
          let* f := getattr md "build_ext.finalize_options" in
          setattr md "build_ext.finalize_options" (FinalizeOptionsWrapped f) ;;;
          ret (Some md)
        else if String.eqb name "pip._internal.operations.install.wheel" then
          debug ("RelenvImporter - load_module " +:+ name) ;;;
          let* md := import name in
          let* f := getattr md "install_wheel" in
          setattr md "install_wheel" (InstallWheelWrapped f) ;;;
          modify (set_importer (set_loading_op_wheel false)) ;;;
          ret (Some md)
        else if String.eqb name "pip._internal.operations.install.legacy" then
          debug ("RelenvImporter - load_module " +:+ name) ;;;
          let* md := import name in
          let* f := getattr md "install" in
          setattr md "install" (InstallLegacyWrapped f) ;;;
          modify (set_importer (set_loading_op_legacy false)) ;;;
          ret (Some md)
        else ret None in
      match md with
      | Some m => modify (set_sys_modules (<[name := m]>)) ;;; ret m
      | None => raise (UnboundLocalError "mod")
      end
  end.

End Interceptor.

(** ** Bootstrap *)

Section Bootstrap.

Context (h : Host).

(** The cross-target step of [bootstrap]. *)
Definition bootstrap_cross : M unit :=
  let* s := get in
  let cross := default "" (environ s !! "RELENV_CROSS") in
  if PyStr.truthy cross then
    let crossroot := w_resolve (world s) (cwd s) (Pathlib.of_str cross) in
    modify (set_sys_prefix (Pathlib.str crossroot)) ;;;
    modify (set_sys_exec_prefix (Pathlib.str crossroot)) ;;;
    let pyver := "python" +:+ get_major_version h in
    modify (fun s =>
      set_sys_path
        ([Pathlib.str (crossroot </> "lib" </> pyver);
          Pathlib.str (crossroot </> "lib" </> pyver </> "lib-dynload");
          Pathlib.str (crossroot </> "lib" </> pyver </> "site-packages")]
         ++ filter (fun x => ¬ Is_true (PyStr.contains "site-packages" x))
              (sys_path s)) s)
  else ret tt.

(** The trust-store step of [bootstrap]. *)
Definition bootstrap_openssl : M unit :=
  let* s := get in
  if bool_decide (environ s !! "SSL_CERT_DIR" = None)
     && negb (String.eqb (sys_platform h) "win32") then
    let openssl_bin := w_which (world s) "openssl" in
    if negb (PyStr.truthy_opt openssl_bin) then
      debug "Could not find the 'openssl' binary in the path"
    else
      let argv := [default "" openssl_bin; "version"; "-d"] in
      modify (emit (EvSubprocess argv)) ;;;
      let '(returncode, stdout, stderr) := w_run (world s) argv in
      if negb (returncode =? 0)%Z then
        let msg := "Unable to get the certificates directory from openssl" in
        let msg := if PyStr.truthy stderr then msg +:+ ": " +:+ stderr else msg in
        debug msg
      else
        match PyStr.split ":" stdout with
        | [_; directory] =>
            let path :=
              Pathlib.of_str
                (PyStr.strip_chars PyStr.dquote (PyStr.strip directory)) in
            let* s := get in
            (if negb (PyStr.truthy_opt (environ s !! "SSL_CERT_DIR")) then
               modify (set_environ
                         (<["SSL_CERT_DIR" := Pathlib.str (path </> "certs")]>))
             else ret tt) ;;;
            let cert_file := path </> "cert.pem" in
            let* s := get in
            if w_exists (world s) (Pathlib.joinpath (cwd s) cert_file)
               && negb (PyStr.truthy_opt (environ s !! "SSL_CERT_FILE")) then
              modify (set_environ
                        (<["SSL_CERT_FILE" := Pathlib.str cert_file]>))
            else ret tt
        | _ => raise ValueError
        end
  else ret tt.

(** [bootstrap()] *)
Definition bootstrap : M unit :=
  bootstrap_cross ;;;
  bootstrap_openssl ;;;
  modify (set_importer (fun _ => new_importer)) ;;;
  modify (fun s => set_sys_meta_path (RelenvFinder :: sys_meta_path s) s).

End Bootstrap.

(** ** Definitions used to state the properties *)

(** The state [debug msg] leaves: the message is printed when
    [RELENV_DEBUG] is truthy, and nothing else changes. *)
Definition after_debug (msg : string) (s : State) : State :=
  if PyStr.truthy_opt (environ s !! "RELENV_DEBUG")
  then emit (EvPrint msg) s else s.

(** Package-manager-directory mode as [_build_shebang] and the wrapped
    [get_config_var] test it: [os.environ.get("RELENV_PIP_DIR")] is
    truthy. *)
Definition pip_dir_mode (s : State) : bool :=
  PyStr.truthy_opt (environ s !! "RELENV_PIP_DIR").

(** The value and the final state of an outcome. *)
Definition returned {A : Type} (o : outcome A) : option A :=
  match o with Ret a _ => Some a | _ => None end.

(** *** Sample hosts and states

    A unix-style and a windows-style host with the module installed under
    [/opt/relenv], a machine with an empty file system and no [openssl],
    and the state of a fresh process on it. *)

Definition sample_format_shebang (python : string) : string :=
  "#!/bin/sh" +:+ String "010" ("exec $(dirname $0)" +:+ python).

Definition sample_real_module (name : string) : option (gmap string value) :=
  if String.eqb name "sysconfig" then
    Some (<["get_config_var" := HostFn "sysconfig.get_config_var"]>
          (<["get_default_scheme" := VScheme "posix_prefix"]>
          (<["get_paths" := HostFn "sysconfig.get_paths"]> ∅)))
  else if String.eqb name "pip._vendor.distlib.scripts" then
    Some (<["ScriptMaker" := HostClass "ScriptMaker"]>
          (<["ScriptMaker._build_shebang" := HostFn "ScriptMaker._build_shebang"]> ∅))
  else if String.eqb name "distutils.command.build_ext" then
    Some (<["build_ext" := HostClass "build_ext"]>
          (<["build_ext.finalize_options" := HostFn "build_ext.finalize_options"]> ∅))
  else if String.eqb name "pip._internal.operations.install.wheel" then
    Some (<["install_wheel" := HostFn "install_wheel"]> ∅)
  else if String.eqb name "pip._internal.operations.install.legacy" then
    Some (<["install" := HostFn "install"]> ∅)
  else None.

Definition unix_host : Host :=
  mkHost "linux" (3, 10)
    (Pathlib.of_str "/opt/relenv/lib/python3.10/site-packages/relenv")
    sample_format_shebang sample_real_module.

Definition windows_host : Host :=
  mkHost "win32" (3, 10)
    (Pathlib.mkPath "C:\" ["relenv"; "Lib"; "site-packages"; "relenv"])
    sample_format_shebang sample_real_module.

Definition empty_world : World :=
  mkWorld (fun _ => false) (fun _ => false) (fun _ => false) (fun _ => None)
    (fun _ => []) (fun c p => Pathlib.joinpath c p) (fun _ => None)
    (fun _ => (1%Z, "", "")).

Definition fresh_state (env : gmap string string) (w : World) : State :=
  mkState env (Pathlib.of_str "/home/user") w "/opt/relenv" "/opt/relenv"
    ["/opt/relenv/lib/python3.10"] [HostFinder "PathFinder"] ∅ ∅
    new_importer [].

(** The state of a process after [bootstrap] put the importer on
    [sys.meta_path]. *)
Definition booted_state (env : gmap string string) (w : World) : State :=
  set_sys_meta_path [RelenvFinder; HostFinder "PathFinder"] (fresh_state env w).

(** The original accessor of the samples: the compiled-in value. *)
Definition sample_get_config_var (name : string) : M string :=
  ret (if String.eqb name "BINDIR" then "/usr/local/bin" else "").

(** The state [s] after the events [evs] happened. *)
Definition emits (evs : list event) (s : State) : State :=
  mkState (environ s) (cwd s) (world s) (sys_prefix s) (sys_exec_prefix s)
    (sys_path s) (sys_meta_path s) (sys_modules s) (modules s) (importer s)
    (trace s ++ evs).

(** The lines [debug msg] prints in state [s]. *)
Definition debug_events (s : State) (msg : string) : list event :=
  if PyStr.truthy_opt (environ s !! "RELENV_DEBUG") then [EvPrint msg] else [].


(** The call [relocate.handle_elf(plat / file, rootdir / "lib", True,
    rootdir)]. *)
Definition handle_elf_call (h : Host) (plat file : Path) : event :=
  EvHandleElf (Pathlib.joinpath plat file) (relenv_root h </> "lib") true
    (relenv_root h).

(** The events of [relocate_file plat file] in state [s]. *)
Definition relocate_events (h : Host) (s : State) (plat file : Path)
    : list event :=
  if negb (w_exists (world s) (Pathlib.joinpath (cwd s) file)) then
    debug_events s ("Relenv - File not found " +:+ Pathlib.str file)
  else if w_is_elf (world s) (Pathlib.joinpath (cwd s) file) then
    debug_events s ("Relenv - Found elf " +:+ Pathlib.str file)
    ++ [handle_elf_call h plat file]
  else [].




(** *** A sample wheel install

    The wheel [pkg] unpacks three files under [/site], one of them a
    shared object; its [RECORD] lists them and a fourth file that is not
    on disk. *)

Definition nl : string := String "010" EmptyString.

Definition sample_record : string :=
  "pkg/__init__.py,sha256=aa,10" +:+ nl +:+
  "pkg/_speedups.so,sha256=bb,2048" +:+ nl +:+
  "pkg/missing.so,sha256=cc,7" +:+ nl +:+
  "pkg-1.0.dist-info/RECORD,," +:+ nl.

Definition str_in (l : list string) (p : Path) : bool :=
  bool_decide (Pathlib.str p ∈ l).

Definition wheel_world : World :=
  mkWorld
    (str_in ["/site/pkg/__init__.py"; "/site/pkg/_speedups.so";
             "/site/pkg-1.0.dist-info/RECORD"])
    (str_in ["/site"; "/site/pkg"; "/site/pkg-1.0.dist-info"; "/home/user"])
    (str_in ["/site/pkg/_speedups.so"; "/site/pkg/missing.so"])
    (fun p => if str_in ["/site/pkg-1.0.dist-info/RECORD"] p
              then Some sample_record else None)
    (fun _ => []) (fun c p => Pathlib.joinpath c p) (fun _ => None)
    (fun _ => (1%Z, "", "")).




(** The version-specific site directory the legacy wrapper searches when
    a prefix is given. *)
Definition legacy_sitepack (h : Host) (a : legacy_args) : Path :=
  Pathlib.of_str (default "" (la_prefix a)) </> "lib"
    </> ("python" +:+ get_major_version h) </> "site-packages".



(** The naming convention in the words of the specification: the name of
    the directory is [<name>-<version>-<suffix>]. *)
Definition matches_convention (name version : string) (path : Path) : bool :=
  PyStr.startswith (Pathlib.name path) (name +:+ "-" +:+ version +:+ "-").


(** *** A sample legacy install

    [foo] 1.2 is installed from [/src/foo] into [/site].  [resolve] on the
    sample machine removes [..] components lexically (there are no
    symbolic links). *)

Fixpoint collapse_dotdot (acc : list string) (l : list string) : list string :=
  match l with
  | [] => rev acc
  | x :: r =>
      if String.eqb x ".." then collapse_dotdot (tail acc) r
      else collapse_dotdot (x :: acc) r
  end.

Definition lexical_resolve (c p : Path) : Path :=
  let q := Pathlib.joinpath c p in
  Pathlib.mkPath (Pathlib.anchor q) (collapse_dotdot [] (Pathlib.parts q)).





(** *** Sample machines with an [openssl] tool

    [openssl version -d] exits with [returncode] and prints [stdout]; the
    bundle [/usr/lib/ssl/cert.pem] exists when [bundle] is set. *)

Definition openssl_world (returncode : Z) (stdout : string) (bundle : bool)
    : World :=
  mkWorld (fun p => bundle && str_in ["/usr/lib/ssl/cert.pem"] p)
    (str_in ["/usr/lib/ssl"; "/home/user"]) (fun _ => false) (fun _ => None)
    (fun _ => []) lexical_resolve
    (fun n => if String.eqb n "openssl" then Some "/usr/bin/openssl" else None)
    (fun _ => (returncode, stdout, "")).

(** The line a stock [openssl version -d] prints. *)
Definition openssl_dir_line : string :=
  "OPENSSLDIR: " +:+ PyStr.dquote +:+ "/usr/lib/ssl" +:+ PyStr.dquote +:+ nl.

(** The same report for an installation whose directory name holds a
    colon. *)
Definition openssl_dir_line_colon : string :=
  "OPENSSLDIR: " +:+ PyStr.dquote +:+ "/opt/ssl:1.1" +:+ PyStr.dquote +:+ nl.

(** *** The five targets of the importer *)

Inductive target := Sysconfig | PipScripts | Distutils | OpWheel | OpLegacy.

#[global] Instance target_eq_dec : EqDecision target.
Proof. solve_decision. Defined.

(** The target a module name selects, by the tests of [find_module] and
    [load_module] in their order. *)
Definition target_of_name (name : string) : option target :=
  if PyStr.startswith name "sysconfig" then Some Sysconfig
  else if String.eqb name "pip._vendor.distlib.scripts" then Some PipScripts
  else if String.eqb name "distutils.command.build_ext" then Some Distutils
  else if String.eqb name "pip._internal.operations.install.wheel" then Some OpWheel
  else if String.eqb name "pip._internal.operations.install.legacy" then Some OpLegacy
  else None.

Definition flag_of (t : target) : Importer → bool :=
  match t with
  | Sysconfig => loading_sysconfig
  | PipScripts => loading_pip_scripts
  | Distutils => loading_distutils
  | OpWheel => loading_op_wheel
  | OpLegacy => loading_op_legacy
  end.

Definition set_flag (t : target) : bool → Importer → Importer :=
  match t with
  | Sysconfig => set_loading_sysconfig
  | PipScripts => set_loading_pip_scripts
  | Distutils => set_loading_distutils
  | OpWheel => set_loading_op_wheel
  | OpLegacy => set_loading_op_legacy
  end.

(** The module [load_module] imports for a name of target [t]. *)
Definition imported_name (t : target) (name : string) : string :=
  match t with Sysconfig => "sysconfig" | _ => name end.

(** What [load_module] does to the flag of the target once the patch is
    applied: every arm but the one of [distutils.command.build_ext]
    clears it. *)
Definition flag_after_load (t : target) : Importer → Importer :=
  match t with
  | Distutils => fun i => i
  | _ => set_flag t false
  end.

(** The result of a host function of no argument, when a call to the
    value returns. *)
Definition scheme_of (v : value) : option string :=
  match v with VScheme s => Some s | _ => None end.

(** The patch of each target as a function on the attributes of the
    module ([None]: an attribute is missing or the scheme accessor does
    not return, and [load_module] raises). *)
Definition patch (t : target) (o : gmap string value)
    : option (gmap string value) :=
  match t with
  | Sysconfig =>
      f ← o !! "get_config_var";
      let o1 := <["_PIP_USE_SYSCONFIG" := VBool true]>
                  (<["get_config_var" := GetConfigVarWrapped f]> o) in
      scheme ← match o1 !! "get_default_scheme" with
               | Some g => scheme_of g
               | None => o1 !! "_get_default_scheme" ≫= scheme_of
               end;
      g ← o1 !! "get_paths";
      Some (<["get_paths" := GetPathsWrapped g scheme]> o1)
  | PipScripts =>
      _ ← o !! "ScriptMaker";
      Some (<["ScriptMaker._build_shebang" := BuildShebang]> o)
  | Distutils =>
      _ ← o !! "build_ext";
      f ← o !! "build_ext.finalize_options";
      Some (<["build_ext.finalize_options" := FinalizeOptionsWrapped f]> o)
  | OpWheel =>
      f ← o !! "install_wheel";
      Some (<["install_wheel" := InstallWheelWrapped f]> o)
  | OpLegacy =>
      f ← o !! "install";
      Some (<["install" := InstallLegacyWrapped f]> o)
  end.

(** The attribute each patch replaces. *)
Definition patched_attr (t : target) : string :=
  match t with
  | Sysconfig => "get_config_var"
  | PipScripts => "ScriptMaker._build_shebang"
  | Distutils => "build_ext.finalize_options"
  | OpWheel => "install_wheel"
  | OpLegacy => "install"
  end.

(** The state with the attributes of module object [m] replaced. *)
Definition with_module (m : string) (o : gmap string value) (s : State) : State :=
  set_modules (<[m := o]>) s.

(** The state [load_module] returns in, from the state [s] its import
    left: module [m] patched to [o'], the flag of the target as the arm
    leaves it, and [m] registered under [name]. *)
Definition loaded (t : target) (name m : string) (o' : gmap string value)
    (s : State) : State :=
  set_sys_modules (<[name := m]>)
    (set_importer (flag_after_load t) (with_module m o' s)).

(** The state a matching probe of target [t] returns in. *)
Definition probed (t : target) (name : string) (s : State) : State :=
  set_importer (set_flag t true)
    (after_debug ("RelenvImporter - match " +:+ name) s).

(** Direct calls on the importer, and their execution in order; [None]
    when the bound on nested imports is hit. *)
Inductive call :=
| Find (name : string)
| Load (name : string)
| Import (name : string).

Definition run_call (h : Host) (fuel : nat) (c : call) (s : State)
    : option State :=
  match c with
  | Find name => final_state (find_module name s)
  | Load name => final_state (load_module h fuel name s)
  | Import name => final_state (import_module h (load_module h fuel) name s)
  end.

Fixpoint run_calls (h : Host) (fuel : nat) (cs : list call) (s : State)
    : option State :=
  match cs with
  | [] => Some s
  | c :: r => run_call h fuel c s ≫= run_calls h fuel r
  end.

(** The attribute [attr] of the module registered under [name]. *)
Definition module_attr (s : State) (name attr : string) : option value :=
  m ← sys_modules s !! name; o ← modules s !! m; o !! attr.

(** The state after the default mechanism built module [name] with
    attributes [obj] and registered it. *)
Definition fresh_import (name : string) (obj : gmap string value) (s : State)
    : State :=
  set_sys_modules (<[name := name]>) (set_modules (<[name := obj]>) s).

(** A computation keeps the property [P] of the state when every state
    it ends in, by returning or by raising, satisfies [P] if the initial
    one does. *)
Definition keeps {A : Type} (P : State → Prop) (m : M A) : Prop :=
  ∀ s, P s →
    match m s with
    | Ret _ s' => P s'
    | Raise _ s' => P s'
    | NoFuel => True
    end.

(** The flag of [distutils.command.build_ext] is set. *)
Definition distutils_loading (s : State) : Prop :=
  loading_distutils (importer s) = true.

(** The function object a patch puts in place of [f]: a closure around
    [f] for four targets, the module's own [_build_shebang] (which holds
    no other function) for the script generator. *)
Definition wrap (t : target) (f : value) : value :=
  match t with
  | Sysconfig => GetConfigVarWrapped f
  | PipScripts => BuildShebang
  | Distutils => FinalizeOptionsWrapped f
  | OpWheel => InstallWheelWrapped f
  | OpLegacy => InstallLegacyWrapped f
  end.

(** The patched attribute after the patch, from its value before. *)
Definition patched_value (t : target) (old : option value) : option value :=
  match t with
  | PipScripts => Some BuildShebang
  | _ => wrap t <$> old
  end.

(** The debug line [load_module] starts with. *)
Definition load_line (name : string) : string :=
  "RelenvImporter - load_module " +:+ name.

(** *** Sample rounds on the importer

    The names of three targets, and the state in which the [load_module]
    of a sample round finds the module after its import: built by the
    default mechanism of the sample host and registered. *)

Definition wheel_name : string := "pip._internal.operations.install.wheel".
Definition scripts_name : string := "pip._vendor.distlib.scripts".
Definition build_ext_name : string := "distutils.command.build_ext".

Definition sample_attrs (name : string) : gmap string value :=
  default ∅ (sample_real_module name).

Definition sample_imported (t : target) (name : string) : State :=
  fresh_import name (sample_attrs name)
    (after_debug (load_line name) (probed t name (booted_state ∅ empty_world))).

(** The value of an attribute after a sequence of calls on the sample
    host, from the state [bootstrap] leaves. *)
Definition attr_after (cs : list call) (name attr : string) : option value :=
  run_calls unix_host 2 cs (booted_state ∅ empty_world)
    ≫= fun s => module_attr s name attr.

(** *** Samples for the wrappers of the configuration module *)

(** The sample original of [get_paths]: the directories of the scheme
    under the build-time prefix. *)
Definition sample_get_paths (scheme : string) (vars : option unit)
    (expand : bool) : M (gmap string string) :=
  ret (<["scripts" := "/usr/local/bin"]>
       (<["purelib" := "/usr/local/lib/python3.10/site-packages"]>
       (<["scheme" := scheme]> ∅))).

(** The header directory every wrapped [finalize_options] appends. *)
Definition include_dir (h : Host) : string :=
  path_str h (relenv_root h) +:+ "/include".

(** A windows-style host with the tree under a user's directory. *)
Definition windows_user_host : Host :=
  mkHost "win32" (3, 10)
    (Pathlib.mkPath "C:\"
       ["Users"; "me"; "relenv"; "Lib"; "site-packages"; "relenv"])
    sample_format_shebang sample_real_module.
(** *** Samples for the installer wrappers *)




(** A line of the descriptor that assigns neither field. *)
Definition no_field (line : string) : Prop :=
  PyStr.startswith line "Version:" = false ∧
  PyStr.startswith line "Name:" = false.







(** *** The importer seen from the rest of the process *)

(** What the importer has no business with: the environment, the working
    directory, the machine, the prefixes, the search paths, and its own
    flag [loading_sysconfig_data], which no method reads or writes. *)
Definition process_settings (s : State) :=
  (environ s, cwd s, world s, sys_prefix s, sys_exec_prefix s, sys_path s,
   sys_meta_path s, loading_sysconfig_data (importer s)).

(** [load_module] with [importlib.import_module], the import it
    delegates to, as a parameter. *)
Definition load_module_with (import : string → M string) (name : string)
    : M string :=
  let* md :=
    if PyStr.startswith name "sysconfig" then
      debug ("RelenvImporter - load_module " +:+ name) ;;;
      let* md := import "sysconfig" in
      let* f := getattr md "get_config_var" in
      setattr md "get_config_var" (GetConfigVarWrapped f) ;;;
      setattr md "_PIP_USE_SYSCONFIG" (VBool true) ;;;
      let* scheme :=
        except_AttributeError
          (let* g := getattr md "get_default_scheme" in call0 g)
          (let* g := getattr md "_get_default_scheme" in call0 g) in
      let* f := getattr md "get_paths" in
      setattr md "get_paths" (GetPathsWrapped f scheme) ;;;
      modify (set_importer (set_loading_sysconfig false)) ;;;
      ret (Some md)
    else if String.eqb name "pip._vendor.distlib.scripts" then
      debug ("RelenvImporter - load_module " +:+ name) ;;;
      let* md := import name in
      let* _ := getattr md "ScriptMaker" in
      setattr md "ScriptMaker._build_shebang" BuildShebang ;;;
      modify (set_importer (set_loading_pip_scripts false)) ;;;
      ret (Some md)
    else if String.eqb name "distutils.command.build_ext" then
      debug ("RelenvImporter - load_module " +:+ name) ;;;
      let* md := import name in
      let* _ := getattr md "build_ext" in
      let* f := getattr md "build_ext.finalize_options" in
      setattr md "build_ext.finalize_options" (FinalizeOptionsWrapped f) ;;;
      ret (Some md)
    else if String.eqb name "pip._internal.operations.install.wheel" then
      debug ("RelenvImporter - load_module " +:+ name) ;;;
      let* md := import name in
      let* f := getattr md "install_wheel" in
      setattr md "install_wheel" (InstallWheelWrapped f) ;;;
      modify (set_importer (set_loading_op_wheel false)) ;;;
      ret (Some md)
    else if String.eqb name "pip._internal.operations.install.legacy" then
      debug ("RelenvImporter - load_module " +:+ name) ;;;
      let* md := import name in
      let* f := getattr md "install" in
      setattr md "install" (InstallLegacyWrapped f) ;;;
      modify (set_importer (set_loading_op_legacy false)) ;;;
      ret (Some md)
    else ret None in
  match md with
  | Some m => modify (set_sys_modules (<[name := m]>)) ;;; ret m
  | None => raise (UnboundLocalError "mod")
  end.

(** A loader for imports that are not expected to reach it. *)
Definition no_loader (name : string) : M string := raise CalleeError.


(** A host whose [sysconfig] has neither accessor of the default
    scheme. *)
Definition host_without_scheme : Host :=
  mkHost "linux" (3, 10)
    (Pathlib.of_str "/opt/relenv/lib/python3.10/site-packages/relenv")
    sample_format_shebang
    (fun name =>
       if String.eqb name "sysconfig" then
         Some (<["get_config_var" := HostFn "sysconfig.get_config_var"]>
               (<["get_paths" := HostFn "sysconfig.get_paths"]> ∅))
       else None).

(** *** The interpreter around [bootstrap] *)

(** The part of the state the trust-store step of [bootstrap] has no
    business with. *)
Definition interpreter_frame (s : State) :=
  (cwd s, world s, sys_prefix s, sys_exec_prefix s, sys_path s,
   sys_meta_path s, sys_modules s, modules s, importer s).

(** The root of the cross target, when [RELENV_CROSS] names one. *)
Definition cross_root (s : State) : option Path :=
  let cross := default "" (environ s !! "RELENV_CROSS") in
  if PyStr.truthy cross
  then Some (w_resolve (world s) (cwd s) (Pathlib.of_str cross))
  else None.

(** The library directory of a root: [<root>/lib/pythonX.Y]. *)
Definition cross_libdir (h : Host) (root : Path) : Path :=
  root </> "lib" </> ("python" +:+ get_major_version h).


(** *** Characters of a string *)

Fixpoint all_chars (f : ascii → bool) (s : string) : bool :=
  match s with
  | EmptyString => true
  | String c r => f c && all_chars f r
  end.

Definition is_digit (c : ascii) : bool := PyStr.mem_char c "0123456789".

(** A host of another version. *)
Definition host_of_version (v : nat * nat) : Host :=
  mkHost "linux" v
    (Pathlib.of_str "/opt/relenv/lib/python3.10/site-packages/relenv")
    sample_format_shebang sample_real_module.

(** * Properties *)

(** ** Basic facts about the monad and [debug] *)

Lemma debug_eq (msg : string) (s : State) :
  debug msg s = Ret tt (after_debug msg s).
Proof.
  unfold debug, after_debug, bind, get, modify, ret.
  destruct (PyStr.truthy_opt (environ s !! "RELENV_DEBUG")); reflexivity.
Qed.

Lemma bind_Ret {A B : Type} (m : M A) (k : A → M B) (s s' : State) (a : A) :
  m s = Ret a s' → bind m k s = k a s'.
Proof. unfold bind. by intros ->. Qed.

Lemma bind_Raise {A B : Type} (m : M A) (k : A → M B) (s s' : State) (e : exn) :
  m s = Raise e s' → bind m k s = Raise e s'.
Proof. unfold bind. by intros ->. Qed.

Lemma bind_ret {A B : Type} (a : A) (k : A → M B) (s : State) :
  bind (ret a) k s = k a s.
Proof. reflexivity. Qed.

Lemma bind_get {B : Type} (k : State → M B) (s : State) :
  bind get k s = k s s.
Proof. reflexivity. Qed.

Lemma bind_modify {B : Type} (f : State → State) (k : unit → M B) (s : State) :
  bind (modify f) k s = k tt (f s).
Proof. reflexivity. Qed.

Lemma bind_debug {B : Type} (msg : string) (k : unit → M B) (s : State) :
  bind (debug msg) k s = k tt (after_debug msg s).
Proof. apply bind_Ret, debug_eq. Qed.

Lemma bind_assoc {A B C : Type} (m : M A) (k : A → M B) (k' : B → M C) (s : State) :
  bind (bind m k) k' s = bind m (fun a => bind (k a) k') s.
Proof. unfold bind. by destruct (m s). Qed.

(** One step of symbolic execution of a monadic program. *)
Ltac mstep :=
  first [ rewrite bind_assoc | rewrite bind_ret | rewrite bind_get
        | rewrite bind_modify | rewrite bind_debug ].
Ltac msteps := repeat mstep.

Lemma after_debug_environ msg s : environ (after_debug msg s) = environ s.
Proof. unfold after_debug. destruct (PyStr.truthy_opt _); reflexivity. Qed.

Lemma after_debug_importer msg s : importer (after_debug msg s) = importer s.
Proof. unfold after_debug. destruct (PyStr.truthy_opt _); reflexivity. Qed.

Lemma after_debug_modules msg s : modules (after_debug msg s) = modules s.
Proof. unfold after_debug. destruct (PyStr.truthy_opt _); reflexivity. Qed.

Lemma after_debug_sys_modules msg s :
  sys_modules (after_debug msg s) = sys_modules s.
Proof. unfold after_debug. destruct (PyStr.truthy_opt _); reflexivity. Qed.

Lemma after_debug_sys_meta_path msg s :
  sys_meta_path (after_debug msg s) = sys_meta_path s.
Proof. unfold after_debug. destruct (PyStr.truthy_opt _); reflexivity. Qed.

Lemma after_debug_world msg s : world (after_debug msg s) = world s.
Proof. unfold after_debug. destruct (PyStr.truthy_opt _); reflexivity. Qed.

Lemma after_debug_cwd msg s : cwd (after_debug msg s) = cwd s.
Proof. unfold after_debug. destruct (PyStr.truthy_opt _); reflexivity. Qed.

Lemma pip_dir_mode_on (s : State) :
  pip_dir_mode s = true ↔
  ∃ v, environ s !! "RELENV_PIP_DIR" = Some v ∧ v ≠ "".
Proof.
  unfold pip_dir_mode. destruct (environ s !! "RELENV_PIP_DIR") as [v|]; simpl.
  - destruct v; simpl; split; try done.
    + intros (v & [= <-] & Hv). done.
    + intros _. eexists. split; [done|done].
  - split; [done|]. intros (v & Hv & _). done.
Qed.

Lemma pip_dir_mode_unset (s : State) :
  environ s !! "RELENV_PIP_DIR" = None → pip_dir_mode s = false.
Proof. unfold pip_dir_mode. by intros ->. Qed.

(** ** The root resolver *)

Lemma removelast_length {A : Type} (l : list A) :
  length (removelast l) = length l - 1.
Proof.
  induction l as [|x [|y l] IH]; [done|done|].
  change (S (length (removelast (y :: l))) = S (length (y :: l)) - 1).
  rewrite IH. simpl. lia.
Qed.

Lemma parent_parts_length (p : Path) :
  length (Pathlib.parts (Pathlib.parent p)) = length (Pathlib.parts p) - 1.
Proof.
  unfold Pathlib.parent. destruct (Pathlib.parts p) as [|x l] eqn:E.
  - by rewrite E.
  - exact (removelast_length (x :: l)).
Qed.

Lemma parent_anchor (p : Path) :
  Pathlib.anchor (Pathlib.parent p) = Pathlib.anchor p.
Proof. unfold Pathlib.parent. by destruct (Pathlib.parts p). Qed.

Lemma relenv_root_win32 (h : Host) :
  sys_platform h = "win32" →
  relenv_root h =
    Pathlib.parent (Pathlib.parent (Pathlib.parent (MODULE_DIR h))).
Proof. intros E. unfold relenv_root. by rewrite E. Qed.

Lemma relenv_root_other (h : Host) :
  sys_platform h ≠ "win32" →
  relenv_root h =
    Pathlib.parent
      (Pathlib.parent (Pathlib.parent (Pathlib.parent (MODULE_DIR h)))).
Proof.
  intros E. unfold relenv_root.
  destruct (String.eqb_spec (sys_platform h) "win32"); [done|done].
Qed.

(** C9. [relenv_root] is a function of the platform and of [MODULE_DIR]
    alone (it reads no state, so every call in a process returns the same
    path); on win32 it is the third parent of [MODULE_DIR], elsewhere the
    fourth, so that for one module directory the unix-style root is the
    parent of the windows-style root, and the windows-style root keeps
    exactly one component more whenever [MODULE_DIR] has at least four. *)
Theorem relenv_root_deterministic_one_level (hw hu : Host) :
  sys_platform hw = "win32" →
  sys_platform hu ≠ "win32" →
  MODULE_DIR hw = MODULE_DIR hu →
  (∀ h h', sys_platform h = sys_platform h' → MODULE_DIR h = MODULE_DIR h' →
           relenv_root h = relenv_root h') ∧
  relenv_root hw =
    Pathlib.parent (Pathlib.parent (Pathlib.parent (MODULE_DIR hw))) ∧
  relenv_root hu =
    Pathlib.parent
      (Pathlib.parent (Pathlib.parent (Pathlib.parent (MODULE_DIR hu)))) ∧
  relenv_root hu = Pathlib.parent (relenv_root hw) ∧
  length (Pathlib.parts (relenv_root hw)) =
    length (Pathlib.parts (MODULE_DIR hw)) - 3 ∧
  length (Pathlib.parts (relenv_root hu)) =
    length (Pathlib.parts (MODULE_DIR hu)) - 4 ∧
  (4 ≤ length (Pathlib.parts (MODULE_DIR hu)) →
   length (Pathlib.parts (relenv_root hw)) =
     S (length (Pathlib.parts (relenv_root hu)))).
Proof.
  intros Hw Hu Hd.
  rewrite (relenv_root_win32 hw Hw), (relenv_root_other hu Hu), Hd.
  repeat split.
  - intros h h' Hp Hm. unfold relenv_root. by rewrite Hp, Hm.
  - rewrite !parent_parts_length. lia.
  - rewrite !parent_parts_length. lia.
  - intros Hlen. rewrite !parent_parts_length. lia.
Qed.

(** On the sample hosts: [C:\relenv] on win32, [/opt/relenv] on linux. *)
Lemma relenv_root_one_level_witness :
  sys_platform windows_host = "win32" ∧
  sys_platform unix_host ≠ "win32" ∧
  relenv_root windows_host = Pathlib.mkPath "C:\" ["relenv"] ∧
  relenv_root unix_host = Pathlib.of_str "/opt/relenv" ∧
  relenv_root unix_host =
    Pathlib.parent
      (relenv_root
         (mkHost "win32" (3, 10) (MODULE_DIR unix_host)
            sample_format_shebang sample_real_module)).
Proof.
  split; [reflexivity|]. split; [discriminate|].
  split; [reflexivity|]. split; [reflexivity|].
  refine (proj1 (proj2 (proj2 (proj2
    (relenv_root_deterministic_one_level
       (mkHost "win32" (3, 10) (MODULE_DIR unix_host)
          sample_format_shebang sample_real_module)
       unix_host _ _ _))))).
  - reflexivity.
  - discriminate.
  - reflexivity.
Defined.

(** ** The shebang builder *)

(** C4, as the code has it.  Whatever its arguments, [_build_shebang]
    returns the bytes of [#!<launcher_dir>\Scripts\python.exe] on win32
    with the package-manager-directory mode on, of
    [#!<launcher_dir>\python.exe] on win32 with the mode off, of
    [format_shebang("/bin/python3")] elsewhere with the mode on and of
    [format_shebang("/python3")] elsewhere with the mode off, where the
    mode is on when [RELENV_PIP_DIR] is set to a non-empty value, and off
    when it is unset or set to the empty string; the only effect is the
    debug line. *)
Theorem build_shebang_table (h : Host) {A K : Type} (args : A) (kwargs : K)
    (s : State) :
  _build_shebang h args kwargs s =
    Ret (match String.eqb (sys_platform h) "win32",
               environ s !! "RELENV_PIP_DIR" with
         | true, Some (String _ _) => "#!<launcher_dir>\Scripts\python.exe"
         | true, _ => "#!<launcher_dir>\python.exe"
         | false, Some (String _ _) => format_shebang h "/bin/python3"
         | false, _ => format_shebang h "/python3"
         end)
        (after_debug "Relenv - _build_shebang" s).
Proof.
  unfold _build_shebang, bind. rewrite debug_eq. unfold get.
  rewrite after_debug_environ.
  destruct (String.eqb (sys_platform h) "win32");
    destruct (environ s !! "RELENV_PIP_DIR") as [[|c v]|]; reflexivity.
Qed.

(** The four cells of the table on the sample hosts. *)
Lemma build_shebang_table_witness :
  let on := fresh_state {["RELENV_PIP_DIR" := "/opt/pip"]} empty_world in
  let off := fresh_state ∅ empty_world in
  returned (_build_shebang windows_host () () on) =
    Some "#!<launcher_dir>\Scripts\python.exe" ∧
  returned (_build_shebang windows_host () () off) =
    Some "#!<launcher_dir>\python.exe" ∧
  returned (_build_shebang unix_host () () on) =
    Some (sample_format_shebang "/bin/python3") ∧
  returned (_build_shebang unix_host () () off) =
    Some (sample_format_shebang "/python3").
Proof.
  intros on off. split; [|split; [|split]].
  - by rewrite (build_shebang_table windows_host () () on).
  - by rewrite (build_shebang_table windows_host () () off).
  - by rewrite (build_shebang_table unix_host () () on).
  - by rewrite (build_shebang_table unix_host () () off).
Defined.

(** C4 fails as stated: with [RELENV_PIP_DIR] set, to the empty string,
    the builder returns the literals of the mode off on both hosts. *)
Lemma build_shebang_empty_pip_dir_is_mode_off :
  let s := fresh_state {["RELENV_PIP_DIR" := ""]} empty_world in
  environ s !! "RELENV_PIP_DIR" = Some "" ∧
  returned (_build_shebang windows_host () () s) =
    Some "#!<launcher_dir>\python.exe" ∧
  returned (_build_shebang windows_host () () s) ≠
    Some "#!<launcher_dir>\Scripts\python.exe" ∧
  returned (_build_shebang unix_host () () s) =
    Some (format_shebang unix_host "/python3") ∧
  returned (_build_shebang unix_host () () s) ≠
    Some (format_shebang unix_host "/bin/python3").
Proof.
  split; [reflexivity|]. split; [reflexivity|]. split; [vm_compute; discriminate|].
  split; [reflexivity|]. vm_compute. discriminate.
Qed.

(** ** The configuration-variable wrapper *)

Lemma of_str_Scripts : Pathlib.of_str "Scripts" = Pathlib.mkPath "" ["Scripts"].
Proof. reflexivity. Qed.

Lemma join_Scripts (p : Path) :
  p </> "Scripts" = Pathlib.mkPath (Pathlib.anchor p) (Pathlib.parts p ++ ["Scripts"]).
Proof. reflexivity. Qed.

Lemma join_Scripts_neq (p : Path) : p </> "Scripts" ≠ p.
Proof.
  rewrite join_Scripts. destruct p as [a l]. simpl. intros [= E].
  apply (f_equal length) in E. rewrite length_app in E. simpl in E. lia.
Qed.

Section ConfigVarFacts.

Context {V : Type} (show : V → string) (h : Host) (func : string → M V).

Lemma get_config_var_wrapper_bindir (s s1 : State) (orig : V) :
  func "BINDIR" s = Ret orig s1 →
  let val := if pip_dir_mode s1 then relenv_root h
             else relenv_root h </> "Scripts" in
  get_config_var_wrapper h show func "BINDIR" s =
    Ret (CfgPath val)
      (after_debug ("get_config_var call BINDIR old: " +:+ show orig
                    +:+ " new: " +:+ Pathlib.str val) s1).
Proof.
  intros Hf. unfold get_config_var_wrapper.
  change (String.eqb "BINDIR" "BINDIR") with true. cbv iota.
  rewrite (bind_Ret _ _ _ _ _ Hf). by msteps.
Qed.

Lemma get_config_var_wrapper_other (name : string) (s s1 : State) (v : V) :
  name ≠ "BINDIR" →
  func name s = Ret v s1 →
  get_config_var_wrapper h show func name s =
    Ret (CfgOrig v)
      (after_debug ("get_config_var call " +:+ name +:+ " " +:+ show v) s1).
Proof.
  intros Hn Hf. unfold get_config_var_wrapper.
  destruct (String.eqb_spec name "BINDIR"); [done|].
  rewrite (bind_Ret _ _ _ _ _ Hf). by msteps.
Qed.

(** C5, as the code has it. Called with [BINDIR] while [RELENV_PIP_DIR]
    is unset, the wrapped accessor returns the relocated root joined with
    [Scripts] whatever the platform; this path has the root's components
    followed by [Scripts] and is never the bare root. *)
Theorem bindir_mode_off_is_scripts_everywhere (s s1 : State) (orig : V) :
  func "BINDIR" s = Ret orig s1 →
  environ s1 !! "RELENV_PIP_DIR" = None →
  returned (get_config_var_wrapper h show func "BINDIR" s) =
    Some (CfgPath (relenv_root h </> "Scripts")) ∧
  Pathlib.parts (relenv_root h </> "Scripts") =
    Pathlib.parts (relenv_root h) ++ ["Scripts"] ∧
  relenv_root h </> "Scripts" ≠ relenv_root h.
Proof.
  intros Hf Hm. split; [|split].
  - rewrite (get_config_var_wrapper_bindir s s1 orig Hf).
    by rewrite (pip_dir_mode_unset s1 Hm).
  - reflexivity.
  - apply join_Scripts_neq.
Qed.

(** C6, as the code has it.  For [BINDIR] the wrapped accessor returns
    the relocated root joined with [Scripts] when the
    package-manager-directory mode is off ([RELENV_PIP_DIR] unset, or set
    to the empty string) and the bare relocated root when it is on
    ([RELENV_PIP_DIR] set to a non-empty value); for every other name it
    returns the value of the original accessor.  In each case the state
    is the one the original accessor left, plus the debug line. *)
Theorem get_config_var_wrapper_cases (name : string) (s s1 : State) (v : V) :
  func name s = Ret v s1 →
  (name = "BINDIR" →
   environ s1 !! "RELENV_PIP_DIR" = None ∨
   environ s1 !! "RELENV_PIP_DIR" = Some "" →
     returned (get_config_var_wrapper h show func name s) =
       Some (CfgPath (relenv_root h </> "Scripts"))) ∧
  (name = "BINDIR" →
   (∃ x, environ s1 !! "RELENV_PIP_DIR" = Some x ∧ x ≠ "") →
     returned (get_config_var_wrapper h show func name s) =
       Some (CfgPath (relenv_root h))) ∧
  (name ≠ "BINDIR" →
     returned (get_config_var_wrapper h show func name s) = Some (CfgOrig v)) ∧
  (∃ msg, final_state (get_config_var_wrapper h show func name s) =
            Some (after_debug msg s1)).
Proof.
  intros Hf. repeat split.
  - intros -> Hm. rewrite (get_config_var_wrapper_bindir s s1 v Hf).
    unfold pip_dir_mode. by destruct Hm as [->| ->].
  - intros -> Hm. rewrite (get_config_var_wrapper_bindir s s1 v Hf).
    by rewrite (proj2 (pip_dir_mode_on s1) Hm).
  - intros Hn. by rewrite (get_config_var_wrapper_other name s s1 v Hn Hf).
  - destruct (decide (name = "BINDIR")) as [->|Hn].
    + rewrite (get_config_var_wrapper_bindir s s1 v Hf). by eexists.
    + rewrite (get_config_var_wrapper_other name s s1 v Hn Hf). by eexists.
Qed.

End ConfigVarFacts.

(** C5 fails as stated: on the unix-style host with [RELENV_PIP_DIR]
    unset, the wrapped accessor answers [BINDIR] with
    [/opt/relenv/Scripts], not with the bare root [/opt/relenv]. *)
Lemma bindir_unix_mode_off_not_bare_root :
  sys_platform unix_host ≠ "win32" ∧
  environ (fresh_state ∅ empty_world) !! "RELENV_PIP_DIR" = None ∧
  relenv_root unix_host = Pathlib.of_str "/opt/relenv" ∧
  returned (get_config_var_wrapper unix_host id sample_get_config_var
              "BINDIR" (fresh_state ∅ empty_world)) =
    Some (CfgPath (Pathlib.of_str "/opt/relenv/Scripts")) ∧
  returned (get_config_var_wrapper unix_host id sample_get_config_var
              "BINDIR" (fresh_state ∅ empty_world)) ≠
    Some (CfgPath (relenv_root unix_host)).
Proof.
  split; [discriminate|]. split; [reflexivity|]. split; [reflexivity|].
  split; [reflexivity|]. vm_compute. discriminate.
Qed.

(** On both sample hosts, with an empty environment. *)
Lemma bindir_mode_off_is_scripts_everywhere_witness :
  returned (get_config_var_wrapper windows_host id sample_get_config_var
              "BINDIR" (fresh_state ∅ empty_world)) =
    Some (CfgPath (Pathlib.mkPath "C:\" ["relenv"; "Scripts"])) ∧
  returned (get_config_var_wrapper unix_host id sample_get_config_var
              "BINDIR" (fresh_state ∅ empty_world)) =
    Some (CfgPath (Pathlib.of_str "/opt/relenv/Scripts")).
Proof.
  split.
  - refine (proj1 (bindir_mode_off_is_scripts_everywhere id windows_host
                     sample_get_config_var (fresh_state ∅ empty_world)
                     (fresh_state ∅ empty_world) "/usr/local/bin" _ _));
      reflexivity.
  - refine (proj1 (bindir_mode_off_is_scripts_everywhere id unix_host
                     sample_get_config_var (fresh_state ∅ empty_world)
                     (fresh_state ∅ empty_world) "/usr/local/bin" _ _));
      reflexivity.
Defined.

(** On the unix-style sample host: [BINDIR] with the mode on and off, and
    another variable. *)
Lemma get_config_var_wrapper_cases_witness :
  returned (get_config_var_wrapper unix_host id sample_get_config_var
              "BINDIR" (fresh_state {["RELENV_PIP_DIR" := "1"]} empty_world)) =
    Some (CfgPath (Pathlib.of_str "/opt/relenv")) ∧
  returned (get_config_var_wrapper unix_host id sample_get_config_var
              "BINDIR" (fresh_state ∅ empty_world)) =
    Some (CfgPath (Pathlib.of_str "/opt/relenv/Scripts")) ∧
  returned (get_config_var_wrapper unix_host id sample_get_config_var
              "LIBDIR" (fresh_state ∅ empty_world)) = Some (CfgOrig "").
Proof.
  split; [|split].
  - refine (proj1 (proj2 (get_config_var_wrapper_cases id unix_host
              sample_get_config_var "BINDIR"
              (fresh_state {["RELENV_PIP_DIR" := "1"]} empty_world)
              (fresh_state {["RELENV_PIP_DIR" := "1"]} empty_world)
              "/usr/local/bin" _)) _ _); [reflexivity|reflexivity|].
    exists "1". split; [reflexivity|discriminate].
  - refine (proj1 (get_config_var_wrapper_cases id unix_host
              sample_get_config_var "BINDIR"
              (fresh_state ∅ empty_world) (fresh_state ∅ empty_world)
              "/usr/local/bin" _) _ _); [reflexivity|reflexivity|].
    left. reflexivity.
  - refine (proj1 (proj2 (proj2 (get_config_var_wrapper_cases id unix_host
              sample_get_config_var "LIBDIR"
              (fresh_state ∅ empty_world) (fresh_state ∅ empty_world)
              "" _))) _); [reflexivity|discriminate].
Defined.

(** C6 fails as stated: with [RELENV_PIP_DIR] set, to the empty string,
    the wrapped accessor answers [BINDIR] with [/opt/relenv/Scripts], not
    with the bare root. *)
Lemma bindir_empty_pip_dir_not_bare_root :
  let s := fresh_state {["RELENV_PIP_DIR" := ""]} empty_world in
  environ s !! "RELENV_PIP_DIR" = Some "" ∧
  returned (get_config_var_wrapper unix_host id sample_get_config_var
              "BINDIR" s) =
    Some (CfgPath (Pathlib.of_str "/opt/relenv/Scripts")) ∧
  returned (get_config_var_wrapper unix_host id sample_get_config_var
              "BINDIR" s) ≠ Some (CfgPath (relenv_root unix_host)).
Proof.
  split; [reflexivity|]. split; [reflexivity|]. vm_compute. discriminate.
Qed.

(** ** The post-install relocation pass *)




Lemma debug_events_emits evs s msg :
  debug_events (emits evs s) msg = debug_events s msg.
Proof. reflexivity. Qed.

Lemma relocate_events_emits h evs s plat file :
  relocate_events h (emits evs s) plat file = relocate_events h s plat file.
Proof. reflexivity. Qed.







(** ** The binary-package installer wrapper *)


(** The original installer is called before anything is relocated: when
    it raises, the wrapper raises the same exception in the same state. *)
Lemma install_wheel_wrapper_original_raises (h : Host)
    (parse_wheel : string → string → M string) (func : wheel_args → M unit)
    (a : wheel_args) (s s1 s2 : State) (info_dir : string) (e : exn) :
  parse_wheel (wa_wheel_path a) (wa_name a) s = Ret info_dir s1 →
  func a s1 = Raise e s2 →
  install_wheel_wrapper h parse_wheel func a s = Raise e s2.
Proof.
  intros Hp Hf. unfold install_wheel_wrapper.
  rewrite (bind_Ret _ _ _ _ _ Hp). by apply bind_Raise.
Qed.


(** ** The legacy installer wrapper *)



Section SearchFacts.

Context (name version : option string) (d : Path).




End SearchFacts.



Lemma prefix_append_l (a b s : string) :
  String.prefix (a +:+ b) s = true → String.prefix a s = true.
Proof.
  revert s. induction a as [|c a IH]; intros s.
  - by destruct s.
  - change (String c a +:+ b) with (String c (a +:+ b)).
    destruct s as [|c' s]; simpl; [done|].
    destruct (Ascii.ascii_dec c c'); [apply IH|done].
Qed.

Lemma string_append_assoc (a b c : string) :
  (a +:+ b) +:+ c = a +:+ (b +:+ c).
Proof.
  induction a as [|x a IH]; [done|].
  change (String x ((a +:+ b) +:+ c) = String x (a +:+ (b +:+ c))).
  by rewrite IH.
Qed.

(** A directory named after the convention passes the wrapper's test;
    the test itself only asks for the prefix [<name>-<version>]. *)
Lemma convention_passes_test (name version : string) (p : Path) :
  matches_convention name version p = true →
  egg_info_matches (Some name) (Some version) p = true.
Proof.
  unfold matches_convention, egg_info_matches, PyStr.startswith. simpl.
  intros H. apply (prefix_append_l _ "-").
  by rewrite !string_append_assoc.
Qed.







(** ** Bootstrap *)

(** The cross-target step always returns and touches neither the
    environment, the machine, nor the trace. *)
Lemma bootstrap_cross_frame (h : Host) (s : State) :
  ∃ s', bootstrap_cross h s = Ret tt s' ∧
        environ s' = environ s ∧ world s' = world s ∧ cwd s' = cwd s ∧
        trace s' = trace s ∧ sys_meta_path s' = sys_meta_path s.
Proof.
  unfold bootstrap_cross. rewrite bind_get.
  destruct (PyStr.truthy (default "" (environ s !! "RELENV_CROSS"))).
  - msteps. eexists. split; [reflexivity|]. by repeat split.
  - eexists. split; [reflexivity|]. by repeat split.
Qed.

(** The trust-store step is skipped as soon as [SSL_CERT_DIR] is in the
    environment, whatever its value. *)
Lemma bootstrap_openssl_skipped (h : Host) (s : State) :
  is_Some (environ s !! "SSL_CERT_DIR") → bootstrap_openssl h s = Ret tt s.
Proof.
  intros [d Hd]. unfold bootstrap_openssl. rewrite bind_get, Hd.
  rewrite bool_decide_eq_false_2; [reflexivity|done].
Qed.


(** The trust-store step raises [ValueError] exactly on a discovery whose
    output does not split at colons into two fields. *)
Lemma bootstrap_openssl_unparsable (h : Host) (s : State)
    (bin out err : string) :
  environ s !! "SSL_CERT_DIR" = None →
  sys_platform h ≠ "win32" →
  w_which (world s) "openssl" = Some bin →
  PyStr.truthy bin = true →
  w_run (world s) [bin; "version"; "-d"] = (0%Z, out, err) →
  length (PyStr.split ":" out) ≠ 2 →
  bootstrap_openssl h s =
    Raise ValueError (emit (EvSubprocess [bin; "version"; "-d"]) s).
Proof.
  intros Hd Hp Hw Ht Hr Hl. unfold bootstrap_openssl.
  rewrite bind_get, Hd, Hw.
  change (PyStr.truthy_opt (Some bin)) with (PyStr.truthy bin). rewrite Ht.
  rewrite bool_decide_eq_true_2 by done.
  destruct (String.eqb_spec (sys_platform h) "win32"); [done|].
  simpl. msteps. rewrite Hr. simpl.
  destruct (PyStr.split ":" out) as [|x [|y [|z l]]]; try reflexivity.
  by simpl in Hl.
Qed.

(** Whatever happens in the trust-store step, it ends (by returning or by
    raising) in a state where every variable the caller had set keeps its
    value, except that an empty [SSL_CERT_FILE] counts as unset. *)
Lemma bootstrap_openssl_frame (h : Host) (s : State) :
  ∃ s', final_state (bootstrap_openssl h s) = Some s' ∧
        sys_meta_path s' = sys_meta_path s ∧
        ∀ k v, environ s !! k = Some v →
               (k = "SSL_CERT_FILE" → v ≠ "") →
               environ s' !! k = Some v.
Proof.
  unfold bootstrap_openssl. rewrite bind_get.
  destruct (bool_decide (environ s !! "SSL_CERT_DIR" = None)) eqn:Hdir;
    [|by eexists].
  apply bool_decide_eq_true in Hdir.
  destruct (negb (String.eqb (sys_platform h) "win32")); [|by eexists].
  cbn [andb].
  destruct (negb (PyStr.truthy_opt (w_which (world s) "openssl"))).
  { rewrite debug_eq. eexists. split; [reflexivity|].
    rewrite after_debug_environ, after_debug_sys_meta_path. by split. }
  msteps.
  destruct (w_run (world s) _) as [[returncode stdout] stderr].
  destruct (negb (returncode =? 0)%Z).
  { rewrite debug_eq. eexists. split; [reflexivity|].
    rewrite after_debug_environ, after_debug_sys_meta_path. by split. }
  destruct (PyStr.split ":" stdout) as [|x [|directory [|z l]]];
    try by (eexists; split; [reflexivity|by split]).
  msteps. cbn [environ emit]. rewrite Hdir. cbn [PyStr.truthy_opt negb].
  msteps. cbn [environ world cwd set_environ emit].
  rewrite lookup_insert_ne by done.
  destruct (w_exists (world s) _ && negb (PyStr.truthy_opt (environ s !! "SSL_CERT_FILE")))
    eqn:Hbundle.
  - eexists. split; [reflexivity|]. split; [reflexivity|].
    intros k v Hk Hne. cbn [environ set_environ emit].
    apply andb_true_iff in Hbundle as [_ Hfile].
    destruct (decide (k = "SSL_CERT_FILE")) as [->|Hk1].
    { rewrite Hk in Hfile. destruct v; [by specialize (Hne eq_refl)|done]. }
    destruct (decide (k = "SSL_CERT_DIR")) as [->|Hk2]; [congruence|].
    by rewrite !lookup_insert_ne.
  - eexists. split; [reflexivity|]. split; [reflexivity|].
    intros k v Hk Hne. cbn [environ set_environ emit].
    destruct (decide (k = "SSL_CERT_DIR")) as [->|Hk2]; [congruence|].
    by rewrite lookup_insert_ne.
Qed.

(** C2, at the inputs where the code departs from it.  When the
    trust-store step runs, [openssl] is found and exits with status 0,
    and its output does not split at colons into exactly two fields,
    [bootstrap] raises [ValueError]: nothing is printed, the environment
    is left as it was, and the importer is not put on [sys.meta_path]. *)
Theorem bootstrap_raises_on_unparsable_output (h : Host) (s : State)
    (bin out err : string) :
  environ s !! "SSL_CERT_DIR" = None →
  sys_platform h ≠ "win32" →
  w_which (world s) "openssl" = Some bin →
  PyStr.truthy bin = true →
  w_run (world s) [bin; "version"; "-d"] = (0%Z, out, err) →
  length (PyStr.split ":" out) ≠ 2 →
  ∃ s', bootstrap h s = Raise ValueError s' ∧
        ¬ returns (bootstrap h s) ∧
        environ s' = environ s ∧
        trace s' = trace s ++ [EvSubprocess [bin; "version"; "-d"]] ∧
        sys_meta_path s' = sys_meta_path s.
Proof.
  intros Hd Hp Hw Ht Hr Hl.
  destruct (bootstrap_cross_frame h s) as (s1 & Hc & He & Hwd & _ & Htr & Hmp).
  assert (Hb : bootstrap h s =
            Raise ValueError (emit (EvSubprocess [bin; "version"; "-d"]) s1)).
  { unfold bootstrap. rewrite (bind_Ret _ _ _ _ _ Hc).
    apply bind_Raise.
    apply (bootstrap_openssl_unparsable h s1 bin out err);
      rewrite ?He, ?Hwd; done. }
  eexists. split; [exact Hb|]. rewrite Hb. simpl.
  split; [tauto|]. by rewrite He, Htr, Hmp.
Qed.

(** Two such outputs: a directory name with a colon, and no output. *)
Lemma bootstrap_raises_on_unparsable_output_witness :
  (∃ s', bootstrap unix_host
           (fresh_state ∅ (openssl_world 0 openssl_dir_line_colon true)) =
         Raise ValueError s') ∧
  (∃ s', bootstrap unix_host (fresh_state ∅ (openssl_world 0 "" true)) =
         Raise ValueError s').
Proof.
  split.
  - destruct (bootstrap_raises_on_unparsable_output unix_host
                (fresh_state ∅ (openssl_world 0 openssl_dir_line_colon true))
                "/usr/bin/openssl" openssl_dir_line_colon "")
      as (s' & Hs & _); try reflexivity; try discriminate.
    by exists s'.
  - destruct (bootstrap_raises_on_unparsable_output unix_host
                (fresh_state ∅ (openssl_world 0 "" true))
                "/usr/bin/openssl" "" "")
      as (s' & Hs & _); try reflexivity; try discriminate.
    by exists s'.
Defined.

(** The two other failures of the discovery are tolerated: with no
    [openssl] on the path, or with a failing [openssl], [bootstrap]
    returns and leaves the environment as it was. *)
Lemma bootstrap_tolerates_missing_or_failing_tool (h : Host) (s : State) :
  (PyStr.truthy_opt (w_which (world s) "openssl") = false ∨
   (w_run (world s) [default "" (w_which (world s) "openssl"); "version"; "-d"]).1.1
     ≠ 0%Z) →
  ∃ s', bootstrap h s = Ret tt s' ∧ environ s' = environ s.
Proof.
  intros Hfail.
  destruct (bootstrap_cross_frame h s) as (s1 & Hc & He & Hwd & _ & Htr & Hmp).
  unfold bootstrap. rewrite (bind_Ret _ _ _ _ _ Hc).
  unfold bootstrap_openssl. rewrite bind_assoc, bind_get, Hwd, He.
  destruct (bool_decide _ && negb _).
  2:{ msteps. eexists. split; [reflexivity|done]. }
  destruct (PyStr.truthy_opt (w_which (world s) "openssl")) eqn:Hwhich;
    cbn [negb].
  2:{ msteps. eexists. split; [reflexivity|].
      cbn [environ set_sys_meta_path set_importer].
      by rewrite after_debug_environ. }
  destruct Hfail as [|Hrc]; [done|].
  rewrite bind_assoc, bind_modify.
  destruct (w_run (world s) _) as [[returncode stdout] stderr].
  simpl in Hrc. destruct (Z.eqb_spec returncode 0); [done|]. cbn [negb].
  msteps. eexists. split; [reflexivity|].
  cbn [environ set_sys_meta_path set_importer].
  by rewrite after_debug_environ.
Qed.

(** C8, as the code has it.  [bootstrap] always ends, by returning or by
    raising.  As soon as [SSL_CERT_DIR] is in the environment (and so
    when both trust-store variables are), it returns without running a
    discovery subprocess: the environment and the trace are unchanged.
    In every case, each variable the caller had set keeps its value,
    except an [SSL_CERT_FILE] set to the empty string, which counts as
    unset. *)
Theorem bootstrap_keeps_caller_environment (h : Host) (s : State) :
  ∃ s', final_state (bootstrap h s) = Some s' ∧
        (is_Some (environ s !! "SSL_CERT_DIR") →
           bootstrap h s = Ret tt s' ∧
           environ s' = environ s ∧ trace s' = trace s) ∧
        (∀ k v, environ s !! k = Some v →
                (k = "SSL_CERT_FILE" → v ≠ "") →
                environ s' !! k = Some v).
Proof.
  destruct (bootstrap_cross_frame h s) as (s1 & Hc & He & Hwd & _ & Htr & Hmp).
  destruct (bootstrap_openssl_frame h s1) as (s2 & Hfin & _ & Hkeep).
  assert (Hb : bootstrap h s =
    match bootstrap_openssl h s1 with
    | Ret _ s2 =>
        Ret tt (set_sys_meta_path
                  (RelenvFinder :: sys_meta_path s2)
                  (set_importer (fun _ => new_importer) s2))
    | Raise e s2 => Raise e s2
    | NoFuel => NoFuel
    end).
  { unfold bootstrap. rewrite (bind_Ret _ _ _ _ _ Hc). unfold bind at 1.
    by destruct (bootstrap_openssl h s1). }
  rewrite Hb.
  destruct (bootstrap_openssl h s1) as [[] s2'|e s2'|] eqn:Ho;
    simpl in Hfin; [| |done]; injection Hfin as ->.
  - eexists. split; [reflexivity|]. split.
    + intros Hset. split; [reflexivity|].
      rewrite <- He in Hset.
      rewrite (bootstrap_openssl_skipped h s1 Hset) in Ho.
      injection Ho as <-. by split.
    + intros k v Hk Hne. apply Hkeep; [by rewrite He|done].
  - eexists. split; [reflexivity|]. split.
    + intros Hset. rewrite <- He in Hset.
      by rewrite (bootstrap_openssl_skipped h s1 Hset) in Ho.
    + intros k v Hk Hne. apply Hkeep; [by rewrite He|done].
Qed.

(** C8 fails as stated: the caller set [SSL_CERT_FILE] (to the empty
    string) and left [SSL_CERT_DIR] unset; [bootstrap] runs the discovery
    and overwrites [SSL_CERT_FILE] with the bundle it found. *)
Lemma bootstrap_overwrites_empty_cert_file :
  let s := fresh_state {["SSL_CERT_FILE" := ""]}
             (openssl_world 0 openssl_dir_line true) in
  environ s !! "SSL_CERT_FILE" = Some "" ∧
  returned (bootstrap unix_host s) = Some tt ∧
  (fun s' => environ s' !! "SSL_CERT_FILE") <$>
    final_state (bootstrap unix_host s) = Some (Some "/usr/lib/ssl/cert.pem") ∧
  trace <$> final_state (bootstrap unix_host s) =
    Some [EvSubprocess ["/usr/bin/openssl"; "version"; "-d"]].
Proof. repeat split; vm_compute; reflexivity. Qed.

(** With both trust-store variables set, on a machine where discovery
    would succeed. *)
Lemma bootstrap_keeps_caller_environment_witness :
  let s := fresh_state
             (<["SSL_CERT_FILE" := "/etc/ssl/ca.pem"]>
                {["SSL_CERT_DIR" := "/etc/ssl/certs"]})
             (openssl_world 0 openssl_dir_line true) in
  ∃ s', bootstrap unix_host s = Ret tt s' ∧
        environ s' !! "SSL_CERT_DIR" = Some "/etc/ssl/certs" ∧
        environ s' !! "SSL_CERT_FILE" = Some "/etc/ssl/ca.pem" ∧
        trace s' = [].
Proof.
  intros s.
  destruct (bootstrap_keeps_caller_environment unix_host s)
    as (s' & _ & Hset & Hkeep).
  destruct Hset as (Hrun & Henv & Htr); [by eexists|].
  exists s'. split; [exact Hrun|]. split; [|split].
  - apply Hkeep; [reflexivity|discriminate].
  - apply Hkeep; [reflexivity|discriminate].
  - rewrite Htr. reflexivity.
Defined.

(** ** The import interceptor *)

Lemma flag_set_flag (t : target) (b : bool) (i : Importer) :
  flag_of t (set_flag t b i) = b.
Proof. by destruct t. Qed.

Lemma flag_set_flag_ne (t t' : target) (b : bool) (i : Importer) :
  t ≠ t' → flag_of t (set_flag t' b i) = flag_of t i.
Proof. by destruct t, t'. Qed.

Lemma distutils_flag_after_load (t : target) (i : Importer) :
  loading_distutils (flag_after_load t i) = loading_distutils i.
Proof. by destruct t. Qed.

Lemma flag_after_load_cleared (t : target) (i : Importer) :
  t ≠ Distutils → flag_of t (flag_after_load t i) = false.
Proof. by destruct t. Qed.

(** [find_module] is the probe of the target the name selects. *)
Lemma find_module_eq (name : string) :
  find_module name =
    match target_of_name name with
    | Some t => probe (flag_of t) (set_flag t) name
    | None => ret false
    end.
Proof.
  unfold find_module, target_of_name.
  repeat (match goal with |- context [if ?c then _ else _] => destruct c end;
          try reflexivity).
Qed.

Lemma probe_clear (t : target) (name : string) (s : State) :
  flag_of t (importer s) = false →
  probe (flag_of t) (set_flag t) name s = Ret true (probed t name s).
Proof.
  intros Hf. unfold probe, probed. rewrite bind_get, Hf. by msteps.
Qed.

Lemma probe_set (t : target) (name : string) (s : State) :
  flag_of t (importer s) = true →
  probe (flag_of t) (set_flag t) name s = Ret false s.
Proof. intros Hf. unfold probe. by rewrite bind_get, Hf. Qed.

(** A probe for a name of target [t] matches when the flag of [t] is
    clear, and sets it. *)
Lemma find_module_match (t : target) (name : string) (s : State) :
  target_of_name name = Some t →
  flag_of t (importer s) = false →
  find_module name s = Ret true (probed t name s).
Proof. intros Ht Hf. rewrite find_module_eq, Ht. by apply probe_clear. Qed.

(** A probe for a name of target [t] does not match while the flag of
    [t] is set, and changes nothing. *)
Lemma find_module_guard (t : target) (name : string) (s : State) :
  target_of_name name = Some t →
  flag_of t (importer s) = true →
  find_module name s = Ret false s.
Proof. intros Ht Hf. rewrite find_module_eq, Ht. by apply probe_set. Qed.

Lemma find_module_other (name : string) (s : State) :
  target_of_name name = None → find_module name s = Ret false s.
Proof. intros Ht. by rewrite find_module_eq, Ht. Qed.

Lemma probed_flag (t : target) (name : string) (s : State) :
  flag_of t (importer (probed t name s)) = true.
Proof. unfold probed. cbn [importer set_importer]. apply flag_set_flag. Qed.

(** *** Module attributes *)

Lemma getattr_eq (m attr : string) (s : State) (o : gmap string value) (v : value) :
  modules s !! m = Some o → o !! attr = Some v → getattr m attr s = Ret v s.
Proof.
  intros Hm Ha. unfold getattr. rewrite bind_get, Hm. simpl. by rewrite Ha.
Qed.

Lemma getattr_missing (m attr : string) (s : State) (o : gmap string value) :
  modules s !! m = Some o → o !! attr = None →
  getattr m attr s = Raise (AttributeError attr) s.
Proof.
  intros Hm Ha. unfold getattr. rewrite bind_get, Hm. simpl. by rewrite Ha.
Qed.

Lemma setattr_with_module (m attr : string) (v : value) (s : State)
    (o : gmap string value) :
  modules s !! m = Some o →
  setattr m attr v s = Ret tt (with_module m (<[attr := v]> o) s).
Proof.
  intros Hm. unfold setattr, modify, with_module, set_modules. do 2 f_equal.
  apply map_eq. intros k. destruct (decide (k = m)) as [->|Hk].
  - by rewrite lookup_alter_eq, lookup_insert_eq, Hm.
  - by rewrite lookup_alter_ne, lookup_insert_ne.
Qed.

Lemma with_module_lookup (m : string) (o : gmap string value) (s : State) :
  modules (with_module m o s) !! m = Some o.
Proof. unfold with_module. cbn [modules set_modules]. apply lookup_insert_eq. Qed.

Lemma with_module_twice (m : string) (o o' : gmap string value) (s : State) :
  with_module m o' (with_module m o s) = with_module m o' s.
Proof.
  unfold with_module, set_modules. cbn [modules]. f_equal.
  apply insert_insert_eq.
Qed.

(** *** Materialisation *)

Ltac mret H := rewrite ?bind_assoc; rewrite (bind_Ret _ _ _ _ _ H).
Ltac attr_get Hm Ha :=
  rewrite ?bind_assoc; rewrite (bind_Ret _ _ _ _ _ (getattr_eq _ _ _ _ _ Hm Ha)).
Ltac attr_set Hm :=
  rewrite ?bind_assoc;
  rewrite (bind_Ret _ _ _ _ _ (setattr_with_module _ _ _ _ _ Hm)).

(** Once its import returned module [m] with attributes [o], and the
    patch of the target applies to [o], [load_module] returns [m]: the
    module is patched once, the flag is cleared (except for
    [distutils.command.build_ext]) and [m] is registered under the
    name. *)
Lemma load_module_patch (h : Host) (t : target) (name m : string) (fuel : nat)
    (s si : State) (o o' : gmap string value) :
  target_of_name name = Some t →
  import_module h (load_module h fuel) (imported_name t name)
    (after_debug ("RelenvImporter - load_module " +:+ name) s) = Ret m si →
  modules si !! m = Some o →
  patch t o = Some o' →
  load_module h (S fuel) name s = Ret m (loaded t name m o' si).
Proof.
  intros Ht Himp Hm Hp. cbn [load_module]. unfold target_of_name in Ht.
  destruct (PyStr.startswith name "sysconfig").
  { injection Ht as <-. cbn [imported_name patch] in *.
    destruct (o !! "get_config_var") as [f|] eqn:Hf; [|done].
    cbn [mbind option_bind] in Hp.
    set (o1 := <["get_config_var" := GetConfigVarWrapped f]> o) in *.
    set (o2 := <["_PIP_USE_SYSCONFIG" := VBool true]> o1) in *.
    assert (∃ scheme, (match o2 !! "get_default_scheme" with
                       | Some g => scheme_of g
                       | None => o2 !! "_get_default_scheme" ≫= scheme_of
                       end) = Some scheme) as [scheme Hsch].
    { destruct (match o2 !! "get_default_scheme" with
                | Some g => scheme_of g
                | None => o2 !! "_get_default_scheme" ≫= scheme_of
                end); [by eexists|done]. }
    rewrite Hsch in Hp. cbn [mbind option_bind] in Hp.
    destruct (o2 !! "get_paths") as [g|] eqn:Hg; [|done].
    injection Hp as <-.
    msteps. rewrite (bind_Ret _ _ _ _ _ Himp).
    attr_get Hm Hf. attr_set Hm. fold o1.
    attr_set (with_module_lookup m o1 si). rewrite with_module_twice. fold o2.
    assert (Hscheme : except_AttributeError
              (let* g := getattr m "get_default_scheme" in call0 g)
              (let* g := getattr m "_get_default_scheme" in call0 g)
              (with_module m o2 si) = Ret scheme (with_module m o2 si)).
    { unfold except_AttributeError.
      destruct (o2 !! "get_default_scheme") as [g1|] eqn:Hg1.
      - attr_get (with_module_lookup m o2 si) Hg1.
        destruct g1; try done. by injection Hsch as ->.
      - rewrite (bind_Raise _ _ _ _ _
                   (getattr_missing _ _ _ _ (with_module_lookup m o2 si) Hg1)).
        destruct (o2 !! "_get_default_scheme") as [g2|] eqn:Hg2; [|done].
        attr_get (with_module_lookup m o2 si) Hg2.
        destruct g2; try done. by injection Hsch as ->. }
    mret Hscheme.
    attr_get (with_module_lookup m o2 si) Hg.
    attr_set (with_module_lookup m o2 si). rewrite with_module_twice.
    by msteps. }
  destruct (String.eqb name "pip._vendor.distlib.scripts").
  { injection Ht as <-. cbn [imported_name patch] in *.
    destruct (o !! "ScriptMaker") as [c|] eqn:Hc; [|done].
    injection Hp as <-.
    msteps. rewrite (bind_Ret _ _ _ _ _ Himp).
    attr_get Hm Hc. attr_set Hm. by msteps. }
  destruct (String.eqb name "distutils.command.build_ext").
  { injection Ht as <-. cbn [imported_name patch] in *.
    destruct (o !! "build_ext") as [c|] eqn:Hc; [|done].
    destruct (o !! "build_ext.finalize_options") as [f|] eqn:Hf; [|done].
    injection Hp as <-.
    msteps. rewrite (bind_Ret _ _ _ _ _ Himp).
    attr_get Hm Hc. attr_get Hm Hf. attr_set Hm. msteps.
    unfold loaded. cbn [flag_after_load]. by destruct (with_module _ _ _). }
  destruct (String.eqb name "pip._internal.operations.install.wheel").
  { injection Ht as <-. cbn [imported_name patch] in *.
    destruct (o !! "install_wheel") as [f|] eqn:Hf; [|done].
    injection Hp as <-.
    msteps. rewrite (bind_Ret _ _ _ _ _ Himp).
    attr_get Hm Hf. attr_set Hm. by msteps. }
  destruct (String.eqb name "pip._internal.operations.install.legacy");
    [|done].
  injection Ht as <-. cbn [imported_name patch] in *.
  destruct (o !! "install") as [f|] eqn:Hf; [|done].
  injection Hp as <-.
  msteps. rewrite (bind_Ret _ _ _ _ _ Himp).
  attr_get Hm Hf. attr_set Hm. by msteps.
Qed.

(** *** Imports performed by [load_module] *)

Lemma import_module_cached (h : Host) (loader : string → M string)
    (name m : string) (s : State) :
  sys_modules s !! name = Some m →
  import_module h loader name s = Ret m s.
Proof. intros Hc. unfold import_module. by rewrite bind_get, Hc. Qed.

(** While the flag of its target is set, an import that is not answered
    from [sys.modules] falls through the importer to the default
    mechanism. *)
Lemma import_module_guarded (h : Host) (loader : string → M string)
    (t : target) (name : string) (s : State) (obj : gmap string value) :
  target_of_name name = Some t →
  flag_of t (importer s) = true →
  sys_modules s !! name = None →
  real_module h name = Some obj →
  import_module h loader name s = Ret name (fresh_import name obj s).
Proof.
  intros Ht Hf Hc Hr. unfold import_module. rewrite bind_get, Hc.
  destruct (bool_decide (RelenvFinder ∈ sys_meta_path s)).
  - rewrite (bind_Ret _ _ _ _ _ (find_module_guard t name s Ht Hf)).
    rewrite Hr. by msteps.
  - rewrite bind_ret, Hr. by msteps.
Qed.

Lemma imported_name_target (t : target) (name : string) :
  target_of_name name = Some t →
  target_of_name (imported_name t name) = Some t.
Proof. by destruct t. Qed.

(** *** Properties kept by every call *)

Lemma keeps_ret {A : Type} (P : State → Prop) (a : A) : keeps P (ret a).
Proof. by intros s Hs. Qed.

Lemma keeps_raise {A : Type} (P : State → Prop) (e : exn) :
  keeps P (raise e : M A).
Proof. by intros s Hs. Qed.

Lemma keeps_get (P : State → Prop) : keeps P get.
Proof. by intros s Hs. Qed.

Lemma keeps_bind {A B : Type} (P : State → Prop) (m : M A) (k : A → M B) :
  keeps P m → (∀ a, keeps P (k a)) → keeps P (bind m k).
Proof.
  intros Hm Hk s Hs. unfold bind. specialize (Hm s Hs).
  destruct (m s) as [a s'|e s'|]; [by apply Hk|done|done].
Qed.

Lemma keeps_modify (P : State → Prop) (f : State → State) :
  (∀ s, P s → P (f s)) → keeps P (modify f).
Proof. intros Hf s Hs. by apply Hf. Qed.

Lemma keeps_except {A : Type} (P : State → Prop) (m handler : M A) :
  keeps P m → keeps P handler → keeps P (except_AttributeError m handler).
Proof.
  intros Hm Hh s Hs. unfold except_AttributeError. specialize (Hm s Hs).
  destruct (m s) as [a s'|[] s'|]; try done. by apply Hh.
Qed.

Lemma keeps_debug (P : State → Prop) (msg : string) :
  (∀ s e, P s → P (emit e s)) → keeps P (debug msg).
Proof.
  intros He s Hs. rewrite debug_eq. unfold after_debug.
  destruct (PyStr.truthy_opt _); [by apply He|done].
Qed.

Lemma keeps_getattr (P : State → Prop) (m attr : string) :
  keeps P (getattr m attr).
Proof.
  unfold getattr. apply keeps_bind; [apply keeps_get|]. intros s0.
  destruct (_ ≫= _); [apply keeps_ret|apply keeps_raise].
Qed.

Lemma keeps_call0 (P : State → Prop) (v : value) : keeps P (call0 v).
Proof. destruct v; first [apply keeps_ret|apply keeps_raise]. Qed.

(** Steps that leave the importer alone keep the flag of
    [distutils.command.build_ext]; so do the steps that set any flag, or
    clear the flag of another target. *)
Lemma distutils_loading_set_flag (t : target) (b : bool) (s : State) :
  t ≠ Distutils ∨ b = true →
  distutils_loading s → distutils_loading (set_importer (set_flag t b) s).
Proof.
  unfold distutils_loading. cbn [importer set_importer].
  intros [Ht| ->]; destruct t; done.
Qed.

Ltac keeps_step :=
  lazymatch goal with
  | |- keeps _ (ret _) => apply keeps_ret
  | |- keeps _ (raise _) => apply keeps_raise
  | |- keeps _ get => apply keeps_get
  | |- keeps _ (getattr _ _) => apply keeps_getattr
  | |- keeps _ (call0 _) => apply keeps_call0
  | |- keeps _ (debug _) => apply keeps_debug; intros ? ? ?; assumption
  | |- keeps _ (except_AttributeError _ _) => apply keeps_except
  | |- keeps _ (setattr _ _ _) => apply keeps_modify; intros ? ?; assumption
  | |- keeps _ (bind _ _) => apply keeps_bind; [|intros ?]
  end.

Lemma keeps_distutils_find_module (name : string) :
  keeps distutils_loading (find_module name).
Proof.
  rewrite find_module_eq. destruct (target_of_name name) as [t|]; [|keeps_step].
  unfold probe. apply keeps_bind; [keeps_step|]. intros s0.
  destruct (flag_of t (importer s0)); [keeps_step|].
  apply keeps_bind; [keeps_step|]. intros _.
  apply keeps_bind; [|intros _; keeps_step].
  apply keeps_modify. intros s Hs. apply (distutils_loading_set_flag t true); auto.
Qed.

Lemma keeps_distutils_import_module (h : Host) (loader : string → M string)
    (name : string) :
  (∀ n, keeps distutils_loading (loader n)) →
  keeps distutils_loading (import_module h loader name).
Proof.
  intros Hl. unfold import_module. apply keeps_bind; [keeps_step|]. intros s0.
  destruct (sys_modules s0 !! name); [keeps_step|].
  apply keeps_bind.
  - destruct (bool_decide _); [apply keeps_distutils_find_module|keeps_step].
  - intros [|]; [apply Hl|].
    destruct (real_module h name); [|keeps_step].
    apply keeps_bind; [by apply keeps_modify|]. intros _.
    apply keeps_bind; [by apply keeps_modify|]. intros _. keeps_step.
Qed.

Lemma keeps_distutils_load_module (h : Host) (fuel : nat) (name : string) :
  keeps distutils_loading (load_module h fuel name).
Proof.
  revert name. induction fuel as [|fuel IH]; intros name; [by intros s Hs|].
  cbn [load_module].
  assert (Himp : ∀ n, keeps distutils_loading
                        (import_module h (load_module h fuel) n))
    by (intros n; by apply keeps_distutils_import_module).
  assert (Hclear : ∀ t, t ≠ Distutils →
            keeps distutils_loading (modify (set_importer (set_flag t false)))).
  { intros t Ht. apply keeps_modify. intros s Hs.
    apply distutils_loading_set_flag; auto. }
  apply keeps_bind.
  - repeat (match goal with
            | |- keeps _ (if ?c then _ else _) => destruct c
            | |- keeps _ (modify (set_importer (set_loading_sysconfig false))) =>
                apply (Hclear Sysconfig); discriminate
            | |- keeps _ (modify (set_importer (set_loading_pip_scripts false))) =>
                apply (Hclear PipScripts); discriminate
            | |- keeps _ (modify (set_importer (set_loading_op_wheel false))) =>
                apply (Hclear OpWheel); discriminate
            | |- keeps _ (modify (set_importer (set_loading_op_legacy false))) =>
                apply (Hclear OpLegacy); discriminate
            | |- keeps _ (import_module _ _ _) => apply Himp
            | |- _ => keeps_step
            end).
  - intros [m|]; [|keeps_step].
    apply keeps_bind; [by apply keeps_modify|]. intros _. keeps_step.
Qed.

(** *** What a patch does to the attribute it replaces *)

Lemma patch_attr (t : target) (o o' : gmap string value) :
  patch t o = Some o' →
  o' !! patched_attr t = patched_value t (o !! patched_attr t) ∧
  is_Some (o' !! patched_attr t).
Proof.
  destruct t; cbn [patch patched_attr patched_value wrap]; intros Hp.
  - destruct (o !! "get_config_var") as [f|]; [|done].
    cbn [mbind option_bind] in Hp.
    destruct (match _ !! "get_default_scheme" with
              | Some g => scheme_of g | None => _ end) as [sch|]; [|done].
    cbn [mbind option_bind] in Hp.
    destruct (_ !! "get_paths") as [g|]; [|done].
    injection Hp as <-. by simplify_map_eq.
  - destruct (o !! "ScriptMaker"); [|done]. injection Hp as <-.
    by simplify_map_eq.
  - destruct (o !! "build_ext"); [|done]. cbn [mbind option_bind] in Hp.
    destruct (o !! "build_ext.finalize_options") as [f|]; [|done].
    injection Hp as <-. by simplify_map_eq.
  - destruct (o !! "install_wheel") as [f|]; [|done].
    injection Hp as <-. by simplify_map_eq.
  - destruct (o !! "install") as [f|]; [|done].
    injection Hp as <-. by simplify_map_eq.
Qed.

(** The patch of the configuration module, with every attribute read
    from the module as it was. *)
Lemma patch_sysconfig_eq (o : gmap string value) :
  patch Sysconfig o =
    (f ← o !! "get_config_var";
     scheme ← match o !! "get_default_scheme" with
              | Some g => scheme_of g
              | None => o !! "_get_default_scheme" ≫= scheme_of
              end;
     g ← o !! "get_paths";
     Some (<["get_paths" := GetPathsWrapped g scheme]>
             (<["_PIP_USE_SYSCONFIG" := VBool true]>
                (<["get_config_var" := GetConfigVarWrapped f]> o)))).
Proof.
  cbn [patch]. destruct (o !! "get_config_var") as [f|]; [|done].
  cbn [mbind option_bind]. by rewrite !lookup_insert_ne by done.
Qed.

(** Except for the script generator, the patch wraps the function it
    finds. *)
Lemma patch_attr_wrap (t : target) (o o' : gmap string value) :
  t ≠ PipScripts →
  patch t o = Some o' →
  ∃ f, o !! patched_attr t = Some f ∧ o' !! patched_attr t = Some (wrap t f).
Proof.
  intros Ht Hp. destruct (patch_attr t o o' Hp) as [Ha [v Hv]].
  assert (Hpv : patched_value t (o !! patched_attr t) =
                wrap t <$> o !! patched_attr t) by by destruct t.
  rewrite Hpv in Ha. destruct (o !! patched_attr t) as [f|].
  - by exists f.
  - by rewrite Ha in Hv.
Qed.

(** A module that was patched can be patched again. *)
Lemma patch_again (t : target) (o o' : gmap string value) :
  patch t o = Some o' → ∃ o'', patch t o' = Some o''.
Proof.
  destruct t; [rewrite !patch_sysconfig_eq|cbn [patch]..]; intros Hp.
  - destruct (o !! "get_config_var") as [f|]; [|done].
    cbn [mbind option_bind] in Hp.
    destruct (match o !! "get_default_scheme" with
              | Some g => scheme_of g | None => _ end) as [sch|] eqn:Hs; [|done].
    cbn [mbind option_bind] in Hp.
    destruct (o !! "get_paths") as [g|] eqn:Hg; [|done].
    injection Hp as <-.
    rewrite (lookup_insert_eq _ "get_paths").
    rewrite !lookup_insert_ne by done. rewrite lookup_insert_eq, Hs.
    by eexists.
  - destruct (o !! "ScriptMaker") eqn:Hc; [|done]. injection Hp as <-.
    simplify_map_eq. by eexists.
  - destruct (o !! "build_ext") eqn:Hc; [|done]. cbn [mbind option_bind] in Hp.
    destruct (o !! "build_ext.finalize_options") as [f|]; [|done].
    injection Hp as <-. simplify_map_eq. by eexists.
  - destruct (o !! "install_wheel") as [f|]; [|done].
    injection Hp as <-. simplify_map_eq. by eexists.
  - destruct (o !! "install") as [f|]; [|done].
    injection Hp as <-. simplify_map_eq. by eexists.
Qed.

(** Applying the script generator's patch twice is applying it once. *)
Lemma patch_scripts_idempotent (o o' o'' : gmap string value) :
  patch PipScripts o = Some o' → patch PipScripts o' = Some o'' → o'' = o'.
Proof.
  cbn [patch]. intros Hp Hp'.
  destruct (o !! "ScriptMaker"); [|done]. injection Hp as <-.
  destruct (_ !! "ScriptMaker"); [|done]. injection Hp' as <-.
  apply insert_insert_eq.
Qed.

(** *** The state a guarded import leaves *)

Lemma import_module_registers (h : Host) (loader : string → M string)
    (t : target) (name m : string) (s si : State) :
  target_of_name name = Some t →
  flag_of t (importer s) = true →
  import_module h loader name s = Ret m si →
  sys_modules si !! name = Some m ∧ importer si = importer s.
Proof.
  intros Ht Hf. unfold import_module. rewrite bind_get.
  destruct (sys_modules s !! name) as [m'|] eqn:Hc.
  - intros [= <- <-]. by split.
  - assert (Hfind : (if bool_decide (RelenvFinder ∈ sys_meta_path s)
                     then find_module name else ret false) s = Ret false s).
    { destruct (bool_decide _); [by apply (find_module_guard t)|done]. }
    rewrite (bind_Ret _ _ _ _ _ Hfind).
    destruct (real_module h name) as [obj|]; [|done]. msteps.
    intros [= <- <-]. cbn [sys_modules importer set_sys_modules set_modules].
    by rewrite lookup_insert_eq.
Qed.

Lemma loaded_sys_modules (t : target) (name m : string)
    (o' : gmap string value) (s : State) :
  sys_modules (loaded t name m o' s) = <[name := m]> (sys_modules s).
Proof. reflexivity. Qed.

Lemma loaded_modules (t : target) (name m : string)
    (o' : gmap string value) (s : State) :
  modules (loaded t name m o' s) !! m = Some o'.
Proof. apply lookup_insert_eq. Qed.

Lemma loaded_importer (t : target) (name m : string)
    (o' : gmap string value) (s : State) :
  importer (loaded t name m o' s) = flag_after_load t (importer s).
Proof. reflexivity. Qed.

Lemma loaded_module_attr (t : target) (name m : string)
    (o' : gmap string value) (s : State) (attr : string) :
  module_attr (loaded t name m o' s) name attr = o' !! attr.
Proof.
  unfold module_attr. rewrite loaded_sys_modules, lookup_insert_eq.
  cbn [mbind option_bind]. by rewrite loaded_modules.
Qed.

(** Every later call keeps the flag of [distutils.command.build_ext]. *)
Lemma run_calls_keeps_distutils (h : Host) (fuel : nat) (cs : list call)
    (s s' : State) :
  distutils_loading s → run_calls h fuel cs s = Some s' → distutils_loading s'.
Proof.
  revert s. induction cs as [|c cs IH]; intros s Hs; simpl.
  - by intros [= <-].
  - destruct (run_call h fuel c s) as [s1|] eqn:Hc; [|done]. simpl.
    apply IH. destruct c as [n|n|n]; simpl in Hc.
    + pose proof (keeps_distutils_find_module n s Hs) as Hk.
      destruct (find_module n s); simpl in Hc; by simplify_eq.
    + pose proof (keeps_distutils_load_module h fuel n s Hs) as Hk.
      destruct (load_module h fuel n s); simpl in Hc; by simplify_eq.
    + pose proof (keeps_distutils_import_module h (load_module h fuel) n
                    (keeps_distutils_load_module h fuel) s Hs) as Hk.
      destruct (import_module h (load_module h fuel) n s); simpl in Hc;
        by simplify_eq.
Qed.

Lemma probed_modules t name s : modules (probed t name s) = modules s.
Proof. unfold probed. cbn [modules set_importer]. apply after_debug_modules. Qed.

Lemma probed_sys_modules t name s : sys_modules (probed t name s) = sys_modules s.
Proof.
  unfold probed. cbn [sys_modules set_importer]. apply after_debug_sys_modules.
Qed.

(** The first round on a target: after a matching probe, [load_module]
    returns the module its import gave, patched once. *)
Lemma first_round (h : Host) (t : target) (name : string) (s : State)
    (fuel : nat) (m : string) (si : State) (o o' : gmap string value) :
  target_of_name name = Some t →
  import_module h (load_module h fuel) (imported_name t name)
    (after_debug (load_line name) (probed t name s)) = Ret m si →
  modules si !! m = Some o →
  patch t o = Some o' →
  load_module h (S fuel) name (probed t name s) =
    Ret m (loaded t name m o' si) ∧
  sys_modules si !! imported_name t name = Some m ∧
  flag_of t (importer si) = true.
Proof.
  intros Ht Himp Hm Hp. split; [by apply (load_module_patch h t name m fuel _ si o)|].
  destruct (import_module_registers h _ t _ m _ si
              (imported_name_target t name Ht)
              ltac:(rewrite after_debug_importer; apply probed_flag) Himp)
    as [Hreg Himpi].
  split; [done|]. rewrite Himpi, after_debug_importer. apply probed_flag.
Qed.

(** C1, as the code has it.  For a name of any of the five targets whose
    flag is clear, the probe matches and sets the flag; while the flag is
    set, no probe for a name of that target matches, and such a probe
    changes nothing.  The [load_module] that follows the match patches
    the module its import gives exactly once: the patched attribute holds
    one more wrapper (or [_build_shebang]).  It leaves the flag set only
    for [distutils.command.build_ext], and clears it for the other four
    targets, so the flag bounds the patch to once per matched probe, not
    to once per process. *)
Theorem probe_once_patch_once_per_materialize (h : Host) (t : target)
    (name : string) (s : State) :
  target_of_name name = Some t →
  flag_of t (importer s) = false →
  let s1 := probed t name s in
  find_module name s = Ret true s1 ∧
  flag_of t (importer s1) = true ∧
  (∀ name', target_of_name name' = Some t → find_module name' s1 = Ret false s1) ∧
  (∀ s' name', target_of_name name' = Some t → flag_of t (importer s') = true →
               find_module name' s' = Ret false s') ∧
  (∀ fuel m si o o',
     import_module h (load_module h fuel) (imported_name t name)
       (after_debug (load_line name) s1) = Ret m si →
     modules si !! m = Some o →
     patch t o = Some o' →
     let s2 := loaded t name m o' si in
     load_module h (S fuel) name s1 = Ret m s2 ∧
     module_attr s2 name (patched_attr t) =
       patched_value t (o !! patched_attr t) ∧
     is_Some (module_attr s2 name (patched_attr t)) ∧
     flag_of t (importer s2) = bool_decide (t = Distutils)).
Proof.
  intros Ht Hf s1.
  split; [by apply find_module_match|].
  split; [apply probed_flag|].
  split; [intros name' Ht'; apply (find_module_guard t); [done|apply probed_flag]|].
  split; [intros s' name' Ht' Hf'; by apply (find_module_guard t)|].
  intros fuel m si o o' Himp Hm Hp s2.
  destruct (first_round h t name s fuel m si o o' Ht Himp Hm Hp)
    as (Hload & Hreg & Hflag).
  destruct (patch_attr t o o' Hp) as [Hattr Hsome].
  split; [exact Hload|]. unfold s2. rewrite loaded_module_attr.
  split; [exact Hattr|]. split; [exact Hsome|].
  rewrite loaded_importer. destruct t; cbn [flag_after_load]; try done.
Qed.

(** C10, as the code has it.  Take a name of a target whose flag is
    clear, the matching probe, and the [load_module] that follows.  For
    [distutils.command.build_ext] the flag stays set through every later
    call on the importer, so no later probe for it matches.  For each of
    the other four targets [load_module] clears the flag, the next probe
    for the name matches again, and the [load_module] that follows
    patches the patched module: for the configuration module and the two
    installers the attribute then holds a wrapper around the wrapper; for
    [pip._vendor.distlib.scripts] the patch assigns [_build_shebang]
    again and the module is as after the first round. *)
Theorem flag_cleared_by_load_except_distutils (h : Host) (t : target)
    (name : string) (s : State) (fuel : nat) (m : string) (si : State)
    (o o' : gmap string value) :
  target_of_name name = Some t →
  flag_of t (importer s) = false →
  import_module h (load_module h fuel) (imported_name t name)
    (after_debug (load_line name) (probed t name s)) = Ret m si →
  modules si !! m = Some o →
  patch t o = Some o' →
  let s2 := loaded t name m o' si in
  find_module name s = Ret true (probed t name s) ∧
  load_module h (S fuel) name (probed t name s) = Ret m s2 ∧
  (t = Distutils →
     distutils_loading s2 ∧
     ∀ fuel' cs s', run_calls h fuel' cs s2 = Some s' →
                    distutils_loading s' ∧ find_module name s' = Ret false s') ∧
  (t ≠ Distutils →
     flag_of t (importer s2) = false ∧
     find_module name s2 = Ret true (probed t name s2) ∧
     ∃ o'',
       patch t o' = Some o'' ∧
       (∀ fuel',
          load_module h (S fuel') name (probed t name s2) =
            Ret m (loaded t name m o''
                     (after_debug (load_line name) (probed t name s2)))) ∧
       (t = PipScripts →
          o'' = o' ∧ o' !! patched_attr t = Some BuildShebang) ∧
       (t ≠ PipScripts →
          ∃ f, o !! patched_attr t = Some f ∧
               o' !! patched_attr t = Some (wrap t f) ∧
               o'' !! patched_attr t = Some (wrap t (wrap t f)))).
Proof.
  intros Ht Hf0 Himp Hm Hp s2.
  destruct (first_round h t name s fuel m si o o' Ht Himp Hm Hp)
    as (Hload & Hreg & Hflag).
  split; [by apply find_module_match|].
  split; [exact Hload|]. split.
  - intros ->. assert (Hs2 : distutils_loading s2) by exact Hflag.
    split; [exact Hs2|]. intros fuel' cs s' Hrun.
    pose proof (run_calls_keeps_distutils h fuel' cs s2 s' Hs2 Hrun) as Hs'.
    split; [exact Hs'|]. by apply (find_module_guard Distutils).
  - intros Hnd.
    assert (Hclear : flag_of t (importer s2) = false).
    { unfold s2. rewrite loaded_importer. by apply flag_after_load_cleared. }
    split; [exact Hclear|]. split; [by apply find_module_match|].
    destruct (patch_again t o o' Hp) as [o'' Hp'].
    destruct (patch_attr t o o' Hp) as [Ha _].
    exists o''. split; [exact Hp'|]. split; [|split].
    + intros fuel'.
      apply (load_module_patch h t name m fuel' _ _ o' o'' Ht); [|  |exact Hp'].
      * apply import_module_cached.
        rewrite after_debug_sys_modules, probed_sys_modules.
        unfold s2. rewrite loaded_sys_modules.
        destruct (decide (name = imported_name t name)) as [<-|Hne].
        -- apply lookup_insert_eq.
        -- by rewrite lookup_insert_ne.
      * rewrite after_debug_modules, probed_modules. apply loaded_modules.
    + intros ->. split; [by apply (patch_scripts_idempotent o)|exact Ha].
    + intros Hns.
      destruct (patch_attr_wrap t o o' Hns Hp) as (f & Hf & Hf').
      destruct (patch_attr_wrap t o' o'' Hns Hp') as (f' & Hg & Hg').
      exists f. rewrite Hf' in Hg. injection Hg as <-. by repeat split.
Qed.

(** C1 fails as stated: in one process the patch of a target is applied
    twice.  Called a second time after the first [load_module], the probe
    for the wheel installer matches again and the second [load_module]
    wraps the wrapper.  Through the host's own imports the same happens
    to the configuration module: importing [sysconfig] and then another
    module whose name starts with [sysconfig] patches [sysconfig]
    twice. *)
Lemma patch_applied_twice_in_one_process :
  attr_after [Find wheel_name; Load wheel_name] wheel_name "install_wheel" =
    Some (InstallWheelWrapped (HostFn "install_wheel")) ∧
  (run_calls unix_host 2 [Find wheel_name; Load wheel_name]
     (booted_state ∅ empty_world)
     ≫= fun s => returned (find_module wheel_name s)) = Some true ∧
  attr_after [Find wheel_name; Load wheel_name; Find wheel_name; Load wheel_name]
    wheel_name "install_wheel" =
    Some (InstallWheelWrapped (InstallWheelWrapped (HostFn "install_wheel"))) ∧
  attr_after [Import "sysconfig"; Import "sysconfigdata"]
    "sysconfig" "get_config_var" =
    Some (GetConfigVarWrapped
            (GetConfigVarWrapped (HostFn "sysconfig.get_config_var"))).
Proof. repeat split; vm_compute; reflexivity. Qed.

(** The wheel installer on the sample host. *)
Lemma probe_once_patch_once_per_materialize_witness :
  let s := booted_state ∅ empty_world in
  find_module wheel_name s = Ret true (probed OpWheel wheel_name s) ∧
  find_module wheel_name (probed OpWheel wheel_name s) =
    Ret false (probed OpWheel wheel_name s) ∧
  module_attr
    (loaded OpWheel wheel_name wheel_name
       (<["install_wheel" := InstallWheelWrapped (HostFn "install_wheel")]>
          (sample_attrs wheel_name))
       (sample_imported OpWheel wheel_name))
    wheel_name "install_wheel" =
    Some (InstallWheelWrapped (HostFn "install_wheel")).
Proof.
  intros s.
  destruct (probe_once_patch_once_per_materialize unix_host OpWheel wheel_name s
              eq_refl eq_refl) as (Hfind & _ & Hguard & _ & Hload).
  split; [exact Hfind|]. split; [exact (Hguard wheel_name eq_refl)|].
  destruct (Hload 1 wheel_name (sample_imported OpWheel wheel_name)
              (sample_attrs wheel_name)
              (<["install_wheel" := InstallWheelWrapped (HostFn "install_wheel")]>
                 (sample_attrs wheel_name))
              eq_refl eq_refl eq_refl) as (_ & Hattr & _).
  exact Hattr.
Defined.

(** C10 fails as stated for the script generator: its patch assigns the
    module's own [_build_shebang], which wraps nothing; after a second
    probe and [load_module] the attribute is what it was after the first,
    not a wrapper around it. *)
Lemma scripts_patch_twice_wraps_nothing :
  attr_after [Find scripts_name; Load scripts_name]
    scripts_name "ScriptMaker._build_shebang" = Some BuildShebang ∧
  (run_calls unix_host 2 [Find scripts_name; Load scripts_name]
     (booted_state ∅ empty_world)
     ≫= fun s => returned (find_module scripts_name s)) = Some true ∧
  attr_after [Find scripts_name; Load scripts_name;
              Find scripts_name; Load scripts_name]
    scripts_name "ScriptMaker._build_shebang" = Some BuildShebang ∧
  (modules <$> run_calls unix_host 2
                 [Find scripts_name; Load scripts_name;
                  Find scripts_name; Load scripts_name]
                 (booted_state ∅ empty_world)) =
  (modules <$> run_calls unix_host 2 [Find scripts_name; Load scripts_name]
                 (booted_state ∅ empty_world)).
Proof. repeat split; vm_compute; reflexivity. Qed.

(** [distutils.command.build_ext] and the wheel installer on the sample
    host. *)
Lemma flag_cleared_by_load_except_distutils_witness :
  (∀ cs s',
     run_calls unix_host 2 cs
       (loaded Distutils build_ext_name build_ext_name
          (<["build_ext.finalize_options" :=
               FinalizeOptionsWrapped (HostFn "build_ext.finalize_options")]>
             (sample_attrs build_ext_name))
          (sample_imported Distutils build_ext_name)) = Some s' →
     find_module build_ext_name s' = Ret false s') ∧
  (∃ o'', patch OpWheel
            (<["install_wheel" := InstallWheelWrapped (HostFn "install_wheel")]>
               (sample_attrs wheel_name)) = Some o'' ∧
          o'' !! "install_wheel" =
            Some (InstallWheelWrapped
                    (InstallWheelWrapped (HostFn "install_wheel")))).
Proof.
  split.
  - assert (Himp : import_module unix_host (load_module unix_host 1)
                     (imported_name Distutils build_ext_name)
                     (after_debug (load_line build_ext_name)
                        (probed Distutils build_ext_name
                           (booted_state ∅ empty_world))) =
                   Ret build_ext_name (sample_imported Distutils build_ext_name))
      by reflexivity.
    assert (Hp : patch Distutils (sample_attrs build_ext_name) =
                 Some (<["build_ext.finalize_options" :=
                           FinalizeOptionsWrapped
                             (HostFn "build_ext.finalize_options")]>
                         (sample_attrs build_ext_name)))
      by reflexivity.
    destruct (flag_cleared_by_load_except_distutils unix_host Distutils
                build_ext_name (booted_state ∅ empty_world) 1 build_ext_name
                (sample_imported Distutils build_ext_name)
                (sample_attrs build_ext_name) _ eq_refl eq_refl Himp eq_refl Hp)
      as (_ & _ & Hd & _).
    destruct (Hd eq_refl) as [_ Hlater].
    intros cs s' Hrun. exact (proj2 (Hlater 2 cs s' Hrun)).
  - assert (Himp : import_module unix_host (load_module unix_host 1)
                     (imported_name OpWheel wheel_name)
                     (after_debug (load_line wheel_name)
                        (probed OpWheel wheel_name
                           (booted_state ∅ empty_world))) =
                   Ret wheel_name (sample_imported OpWheel wheel_name))
      by reflexivity.
    assert (Hp : patch OpWheel (sample_attrs wheel_name) =
                 Some (<["install_wheel" :=
                           InstallWheelWrapped (HostFn "install_wheel")]>
                         (sample_attrs wheel_name)))
      by reflexivity.
    destruct (flag_cleared_by_load_except_distutils unix_host OpWheel
                wheel_name (booted_state ∅ empty_world) 1 wheel_name
                (sample_imported OpWheel wheel_name)
                (sample_attrs wheel_name) _ eq_refl eq_refl Himp eq_refl Hp)
      as (_ & _ & _ & Hw).
    destruct (Hw ltac:(discriminate)) as (_ & _ & o'' & Hp' & _ & _ & Hwrap).
    destruct (Hwrap ltac:(discriminate)) as (f & Hf & _ & Hf'').
    exists o''. split; [exact Hp'|].
    assert (f = HostFn "install_wheel") as -> by (vm_compute in Hf; congruence).
    exact Hf''.
Defined.

(** * Further properties of the module *)

(** ** The wrappers of the configuration module *)

(** X1. The wrapped [get_paths] calls the original with the default
    scheme when none is given and with [expand=True] when that is left
    out, and changes at most the entry [scripts] of its result.  When
    [RELENV_PIP_DIR] is in the environment, with any value, [scripts]
    becomes [str(relenv_root())], in the path flavour of the platform,
    and [sys.exec_prefix] is set to the same string; otherwise the result
    and the state of the original are returned as they are. *)
Theorem get_paths_wrapper_overrides_scripts_only {Vars : Type} (h : Host)
    (func : string → option Vars → bool → M (gmap string string))
    (default_scheme : string) (scheme : option string) (vars : option Vars)
    (expand : option bool) (s s1 : State) (paths : gmap string string) :
  func (default default_scheme scheme) vars (default true expand) s =
    Ret paths s1 →
  ∃ paths' s2,
    get_paths_wrapper h func default_scheme scheme vars expand s =
      Ret paths' s2 ∧
    (∀ k, k ≠ "scripts" → paths' !! k = paths !! k) ∧
    (is_Some (environ s1 !! "RELENV_PIP_DIR") →
       paths' !! "scripts" = Some (path_str h (relenv_root h)) ∧
       s2 = set_sys_exec_prefix (path_str h (relenv_root h)) s1) ∧
    (environ s1 !! "RELENV_PIP_DIR" = None → paths' = paths ∧ s2 = s1).
Proof.
  intros Hf. unfold get_paths_wrapper. rewrite (bind_Ret _ _ _ _ _ Hf), bind_get.
  destruct (environ s1 !! "RELENV_PIP_DIR") as [v|] eqn:Hv.
  - msteps. eexists _, _. split; [reflexivity|]. split; [|split].
    + intros k Hk. by rewrite lookup_insert_ne.
    + intros _. by rewrite lookup_insert_eq.
    + done.
  - eexists _, _. split; [reflexivity|]. split; [done|]. split; [|done].
    by intros [? ?].
Qed.

(** With [RELENV_PIP_DIR] set to the empty string the entry [scripts] is
    the root, and the other entries are the original's: on the unix-style
    host, and on a windows-style host under [C:\Users\me]. *)
Lemma get_paths_wrapper_overrides_scripts_only_witness :
  let s := fresh_state {["RELENV_PIP_DIR" := ""]} empty_world in
  (∃ paths' s2,
     get_paths_wrapper unix_host sample_get_paths "posix_prefix" None None None s =
       Ret paths' s2 ∧
     paths' !! "scripts" = Some "/opt/relenv" ∧
     paths' !! "scheme" = Some "posix_prefix" ∧
     sys_exec_prefix s2 = "/opt/relenv") ∧
  (∃ paths' s2,
     get_paths_wrapper windows_user_host sample_get_paths "nt" None None None s =
       Ret paths' s2 ∧
     paths' !! "scripts" = Some "C:\Users\me\relenv" ∧
     sys_exec_prefix s2 = "C:\Users\me\relenv").
Proof.
  intros s. split.
  - destruct (get_paths_wrapper_overrides_scripts_only unix_host sample_get_paths
                "posix_prefix" None None None s s _ eq_refl)
      as (paths' & s2 & Hrun & Hother & Hon & _).
    exists paths', s2. split; [exact Hrun|].
    destruct Hon as [Hs ->]; [by eexists|].
    split; [exact Hs|]. split; [|reflexivity].
    rewrite Hother by done. reflexivity.
  - destruct (get_paths_wrapper_overrides_scripts_only windows_user_host
                sample_get_paths "nt" None None None s s _ eq_refl)
      as (paths' & s2 & Hrun & _ & Hon & _).
    exists paths', s2. split; [exact Hrun|].
    destruct Hon as [Hs ->]; [by eexists|].
    split; [exact Hs|reflexivity].
Defined.

(** X2. The two wrappers of the configuration module test
    [RELENV_PIP_DIR] differently: the variable wrapper asks whether its
    value is truthy, the path-set wrapper whether it is present.  They
    agree when the variable is unset (scripts directory
    [root / "Scripts"], path set untouched) and when it is non-empty
    (both give the root); with [RELENV_PIP_DIR] set to the empty string
    the path set says the root while [BINDIR] is [root / "Scripts"].  The
    path set holds the root as text, in the path flavour of the
    platform. *)
Theorem pip_dir_tests_differ_on_empty_value {V Vars : Type} (h : Host)
    (show : V → string) (get_config_var : string → M V)
    (get_paths : string → option Vars → bool → M (gmap string string))
    (default_scheme : string) (s : State) (orig : V) (paths : gmap string string) :
  get_config_var "BINDIR" s = Ret orig s →
  get_paths default_scheme None true s = Ret paths s →
  let bindir :=
    returned (get_config_var_wrapper h show get_config_var "BINDIR" s) in
  let scripts :=
    returned (get_paths_wrapper h get_paths default_scheme None None None s)
      ≫= (.!! "scripts") in
  match environ s !! "RELENV_PIP_DIR" with
  | None =>
      bindir = Some (CfgPath (relenv_root h </> "Scripts")) ∧
      scripts = paths !! "scripts"
  | Some "" =>
      bindir = Some (CfgPath (relenv_root h </> "Scripts")) ∧
      scripts = Some (path_str h (relenv_root h)) ∧
      relenv_root h </> "Scripts" ≠ relenv_root h
  | Some _ =>
      bindir = Some (CfgPath (relenv_root h)) ∧
      scripts = Some (path_str h (relenv_root h))
  end.
Proof.
  intros Hc Hp bindir scripts. subst bindir scripts.
  unfold get_config_var_wrapper, get_paths_wrapper.
  cbn [String.eqb Ascii.eqb Bool.eqb].
  change (default default_scheme None) with default_scheme.
  change (default true None) with true.
  rewrite (bind_Ret _ _ _ _ _ Hc), (bind_Ret _ _ _ _ _ Hp). msteps.
  destruct (environ s !! "RELENV_PIP_DIR") as [[|c v]|] eqn:Hv;
    cbn [PyStr.truthy_opt PyStr.truthy].
  - msteps. unfold ret. cbn [returned mbind option_bind].
    rewrite lookup_insert_eq.
    split; [done|]. split; [done|]. apply join_Scripts_neq.
  - msteps. unfold ret. cbn [returned mbind option_bind].
    by rewrite lookup_insert_eq.
  - msteps. unfold ret. by cbn [returned mbind option_bind].
Qed.

(** The disagreement on the unix-style sample host and on a windows-style
    host. *)
Lemma pip_dir_tests_differ_on_empty_value_witness :
  let s := fresh_state {["RELENV_PIP_DIR" := ""]} empty_world in
  returned (get_config_var_wrapper unix_host id sample_get_config_var "BINDIR" s) =
    Some (CfgPath (Pathlib.of_str "/opt/relenv/Scripts")) ∧
  returned (get_paths_wrapper unix_host sample_get_paths "posix_prefix"
              None None None s) ≫= (.!! "scripts") = Some "/opt/relenv" ∧
  returned (get_config_var_wrapper windows_user_host id sample_get_config_var
              "BINDIR" s) =
    Some (CfgPath (Pathlib.mkPath "C:\" ["Users"; "me"; "relenv"; "Scripts"])) ∧
  returned (get_paths_wrapper windows_user_host sample_get_paths "nt"
              None None None s) ≫= (.!! "scripts") = Some "C:\Users\me\relenv".
Proof.
  intros s.
  pose proof (pip_dir_tests_differ_on_empty_value unix_host id
                sample_get_config_var sample_get_paths "posix_prefix" s
                _ _ eq_refl eq_refl) as H.
  pose proof (pip_dir_tests_differ_on_empty_value windows_user_host id
                sample_get_config_var sample_get_paths "nt" s
                _ _ eq_refl eq_refl) as Hw.
  cbv zeta in H, Hw.
  change (environ s !! "RELENV_PIP_DIR") with (Some "" : option string) in H, Hw.
  destruct H as (Hb & Hs & _). destruct Hw as (Hwb & Hws & _).
  split; [exact Hb|]. split; [exact Hs|]. split; [exact Hwb|exact Hws].
Defined.

(** X3. Wrapping [get_paths] a second time changes nothing: the doubly
    wrapped accessor has the outcome (result, state or exception) of the
    singly wrapped one with the outer default scheme, since the override
    writes a fixed value. *)
Theorem get_paths_wrapper_twice {Vars : Type} (h : Host)
    (func : string → option Vars → bool → M (gmap string string))
    (inner_default outer_default : string) (scheme : option string)
    (vars : option Vars) (expand : option bool) (s : State) :
  get_paths_wrapper h
    (fun sc v e => get_paths_wrapper h func inner_default (Some sc) v (Some e))
    outer_default scheme vars expand s =
  get_paths_wrapper h func outer_default scheme vars expand s.
Proof.
  unfold get_paths_wrapper.
  set (sc := default outer_default scheme). set (ex := default true expand).
  change (default inner_default (Some sc)) with sc.
  change (default true (Some ex)) with ex.
  rewrite bind_assoc.
  destruct (func sc vars ex s) as [paths s1|e s1|] eqn:E.
  - rewrite !(bind_Ret _ _ _ _ _ E). msteps.
    destruct (environ s1 !! "RELENV_PIP_DIR") as [v|] eqn:Hv.
    + msteps. cbn [environ set_sys_exec_prefix]. rewrite Hv. msteps.
      unfold ret. by rewrite insert_insert_eq.
    + msteps. by rewrite Hv.
  - by rewrite !(bind_Raise _ _ _ _ _ E).
  - unfold bind. by rewrite E.
Qed.

(** X4. Each wrapping of [finalize_options] appends one copy of the
    header directory: under [n] nested wrappers the command ends with the
    include directories of the original followed by [n] copies of
    [f"{relenv_root()}/include"] (the root in the path flavour of the
    platform, then a slash and [include]), in the state the original
    left; when the original raises, so does every wrapping of it, and
    nothing is appended. *)
Theorem finalize_options_wrapper_appends_once_per_wrapping (h : Host)
    (func : list string → M (list string)) (include_dirs : list string)
    (n : nat) (s : State) :
  Nat.iter n (finalize_options_wrapper h) func include_dirs s =
    match func include_dirs s with
    | Ret dirs s1 => Ret (dirs ++ replicate n (include_dir h)) s1
    | o => o
    end.
Proof.
  induction n as [|n IH]; cbn [Nat.iter nat_rect].
  - destruct (func include_dirs s); [|done..]. by rewrite app_nil_r.
  - unfold finalize_options_wrapper at 1. unfold bind.
    change (nat_rect _ func _ n) with (Nat.iter n (finalize_options_wrapper h) func).
    rewrite IH. destruct (func include_dirs s) as [dirs s1|e s1|]; [|done..].
    unfold ret. rewrite <- app_assoc. do 2 f_equal.
    change [path_str h (relenv_root h) +:+ "/include"]
      with (replicate 1 (include_dir h)).
    rewrite <- replicate_add. f_equal. lia.
Qed.

(** One wrapper on the unix-style host, and on a windows-style host
    under [C:\Users\me]. *)
Lemma finalize_options_wrapper_appends_once_per_wrapping_witness :
  let s := fresh_state ∅ empty_world in
  finalize_options_wrapper unix_host ret ["/usr/include"] s =
    Ret ["/usr/include"; "/opt/relenv/include"] s ∧
  finalize_options_wrapper windows_user_host ret [] s =
    Ret ["C:\Users\me\relenv/include"] s.
Proof.
  intros s. split.
  - exact (finalize_options_wrapper_appends_once_per_wrapping unix_host ret
             ["/usr/include"] 1 s).
  - exact (finalize_options_wrapper_appends_once_per_wrapping windows_user_host
             ret [] 1 s).
Defined.

(** X5. A doubly wrapped [get_config_var] answers as the singly wrapped
    one does: for [BINDIR] the path of this module (the root when
    [RELENV_PIP_DIR] is truthy, [root / "Scripts"] otherwise), for any
    other name the value of the original, passed through both
    wrappers. *)
Theorem get_config_var_wrapper_twice {V : Type} (h : Host)
    (show : V → string) (show' : config_value (V:=V) → string)
    (func : string → M V) (name : string) (s s1 : State) (v : V) :
  func name s = Ret v s1 →
  returned (get_config_var_wrapper h show'
              (get_config_var_wrapper h show func) name s) =
    Some (if String.eqb name "BINDIR"
          then CfgPath (if pip_dir_mode s1 then relenv_root h
                        else relenv_root h </> "Scripts")
          else CfgOrig (CfgOrig v)) ∧
  returned (get_config_var_wrapper h show func name s) =
    Some (if String.eqb name "BINDIR"
          then CfgPath (if pip_dir_mode s1 then relenv_root h
                        else relenv_root h </> "Scripts")
          else CfgOrig v).
Proof.
  intros Hf. unfold get_config_var_wrapper, pip_dir_mode.
  destruct (String.eqb name "BINDIR");
    (split; rewrite ?bind_assoc, (bind_Ret _ _ _ _ _ Hf); msteps;
     rewrite ?after_debug_environ; reflexivity).
Qed.

Lemma get_config_var_wrapper_twice_witness :
  returned (get_config_var_wrapper unix_host (fun _ => "")
              (get_config_var_wrapper unix_host id sample_get_config_var)
              "BINDIR" (fresh_state ∅ empty_world)) =
    Some (CfgPath (Pathlib.of_str "/opt/relenv/Scripts")).
Proof.
  exact (proj1 (get_config_var_wrapper_twice unix_host id (fun _ => "")
                  sample_get_config_var "BINDIR" (fresh_state ∅ empty_world)
                  (fresh_state ∅ empty_world) "/usr/local/bin" eq_refl)).
Defined.

(** ** The directory change around the legacy manifest *)

Lemma bind_NoFuel {A B : Type} (m : M A) (k : A → M B) (s : State) :
  m s = NoFuel → bind m k s = NoFuel.
Proof. unfold bind. by intros ->. Qed.

Lemma joinpath_absolute (p q : Path) :
  PyStr.truthy (Pathlib.anchor q) = true → Pathlib.joinpath p q = q.
Proof. unfold Pathlib.joinpath. by intros ->. Qed.

Lemma set_cwd_same (s : State) : set_cwd (cwd s) s = s.
Proof. by destruct s. Qed.

(** X6. [pushd] enters the directory, runs the body and goes back to the
    directory it started from (an absolute path, as [os.getcwd()] gives),
    whether the body returns or raises; the working directory the body
    leaves does not matter.  When the target is not a directory, [pushd]
    raises [OSError] for it, and the body does not run. *)
Theorem pushd_restores_cwd {A : Type} (d : Path) (body : M A) (s : State) :
  PyStr.truthy (Pathlib.anchor (cwd s)) = true →
  (∀ s', final_state (body (set_cwd (Pathlib.joinpath (cwd s) d) s)) = Some s' →
         w_is_dir (world s') (cwd s) = true) →
  pushd d body s =
    if w_is_dir (world s) (Pathlib.joinpath (cwd s) d) then
      match body (set_cwd (Pathlib.joinpath (cwd s) d) s) with
      | Ret a s' => Ret a (set_cwd (cwd s) s')
      | Raise e s' => Raise e (set_cwd (cwd s) s')
      | NoFuel => NoFuel
      end
    else Raise (OSError d) s.
Proof.
  intros Habs Hold. unfold pushd, chdir. msteps.
  destruct (w_is_dir (world s) (Pathlib.joinpath (cwd s) d)); [|done].
  msteps.
  destruct (body (set_cwd (Pathlib.joinpath (cwd s) d) s)) as [a s'|e s'|] eqn:Hb;
    [| |done].
  - msteps. rewrite (joinpath_absolute _ _ Habs), (Hold s' eq_refl). by msteps.
  - msteps. rewrite (joinpath_absolute _ _ Habs), (Hold s' eq_refl). by msteps.
Qed.

(** A body that raises in [/site/pkg]: the exception passes and the
    process is back in [/home/user]. *)
Lemma pushd_restores_cwd_witness :
  let s := fresh_state ∅ wheel_world in
  pushd (Pathlib.of_str "/site/pkg") (raise ValueError : M unit) s =
    Raise ValueError s ∧
  pushd (Pathlib.of_str "/nowhere") (raise ValueError : M unit) s =
    Raise (OSError (Pathlib.of_str "/nowhere")) s.
Proof.
  intros s. split.
  - rewrite (pushd_restores_cwd (Pathlib.of_str "/site/pkg")
               (raise ValueError : M unit) s eq_refl).
    + reflexivity.
    + intros s' [= <-]. reflexivity.
  - rewrite (pushd_restores_cwd (Pathlib.of_str "/nowhere")
               (raise ValueError : M unit) s eq_refl).
    + reflexivity.
    + intros s' [= <-]. reflexivity.
Defined.

(** ** More on the binary-package installer wrapper *)









(** ** More on the legacy installer wrapper *)









(** *** The scan of the descriptor *)

Lemma string_of_list_snoc (l : list ascii) (c : ascii) (s : string) :
  String.string_of_list_ascii (l ++ [c]) +:+ s =
  String.string_of_list_ascii l +:+ String c s.
Proof.
  induction l as [|x l IH]; [done|].
  change (String x (String.string_of_list_ascii (l ++ [c]) +:+ s) =
          String x (String.string_of_list_ascii l +:+ String c s)).
  by rewrite IH.
Qed.

Lemma rev_string_cons (c : ascii) (cur : list ascii) (s : string) :
  PyStr.rev_string (c :: cur) +:+ s = PyStr.rev_string cur +:+ String c s.
Proof. unfold PyStr.rev_string. cbn [rev]. apply string_of_list_snoc. Qed.

(** A string that does not contain the separator is one field. *)
Lemma split_go_no_sep (sep : string) (cur : list ascii) (s : string) :
  PyStr.contains sep s = false →
  PyStr.split_go sep None 0 cur s = [PyStr.rev_string cur +:+ s].
Proof.
  revert cur. induction s as [|c s IH]; intros cur Hc.
  - cbn [PyStr.split_go]. f_equal.
    generalize (PyStr.rev_string cur). intros x.
    induction x as [|y x IHx]; [done|].
    change (String y x = String y (x +:+ "")). by rewrite <- IHx.
  - cbn [PyStr.contains] in Hc. apply orb_false_iff in Hc as [Hp Hc].
    cbn [PyStr.split_go andb]. rewrite Hp. rewrite (IH _ Hc).
    by rewrite rev_string_cons.
Qed.

Lemma split_no_sep (sep s : string) :
  PyStr.contains sep s = false → PyStr.split sep s = [s].
Proof. intros Hc. unfold PyStr.split. by rewrite split_go_no_sep. Qed.

Lemma split_go_skip (sep : string) (b : option nat) (cur : list ascii)
    (x v : string) :
  PyStr.split_go sep b (String.length x) cur (x +:+ v) =
  PyStr.split_go sep b 0 cur v.
Proof.
  induction x as [|c x IH]; [done|].
  change (String c x +:+ v) with (String c (x +:+ v)).
  cbn [String.length PyStr.split_go]. exact IH.
Qed.

Lemma prefix_append (a b : string) : String.prefix a (a +:+ b) = true.
Proof.
  induction a as [|c a IH]; [by destruct b|].
  change (String c a +:+ b) with (String c (a +:+ b)). cbn [String.prefix].
  by destruct (Ascii.ascii_dec c c).
Qed.

(** The field after a leading separator, when the rest holds no other. *)
Lemma split_after_sep (c : ascii) (sep' v : string) :
  PyStr.contains (String c sep') v = false →
  PyStr.split (String c sep') (String c sep' +:+ v) !! 1 = Some v.
Proof.
  intros Hc. unfold PyStr.split.
  change (String c sep' +:+ v) with (String c (sep' +:+ v)).
  cbn [PyStr.split_go andb].
  change (String c (sep' +:+ v)) with (String c sep' +:+ v).
  rewrite prefix_append. cbn [fmap option_fmap option_map].
  replace (String.length (String c sep') - 1) with (String.length sep')
    by (cbn [String.length]; lia).
  cbn [lookup list_lookup]. rewrite split_go_skip.
  by rewrite split_go_no_sep.
Qed.

Lemma scan_pkg_info_skip (pre rest : list string) (version name : option string)
    (s : State) :
  Forall no_field pre →
  scan_pkg_info (pre ++ rest) version name s =
  scan_pkg_info rest version name s.
Proof.
  induction 1 as [|line pre [Hv Hn] _ IH]; [done|].
  cbn [app scan_pkg_info]. rewrite Hv, Hn. by msteps.
Qed.

(** X13. On a descriptor that holds a line [Name: <n>] and a line
    [Version: <v>], in either order, with no other line starting with
    [Name:] or [Version:] before the second of them, the scan gives the
    two values stripped of surrounding white space, and stops there: the
    lines that follow are not looked at.  (The values do not themselves
    contain the field marker, and are not blank.) *)
Theorem scan_pkg_info_reads_name_and_version (pre mid post : list string)
    (n v : string) (s : State) :
  Forall no_field pre → Forall no_field mid →
  PyStr.contains "Name: " n = false →
  PyStr.contains "Version: " v = false →
  PyStr.truthy (PyStr.strip n) = true →
  PyStr.truthy (PyStr.strip v) = true →
  scan_pkg_info
    (pre ++ ("Name: " +:+ n) :: mid ++ ("Version: " +:+ v) :: post)
    None None s = Ret (Some (PyStr.strip v), Some (PyStr.strip n)) s ∧
  scan_pkg_info
    (pre ++ ("Version: " +:+ v) :: mid ++ ("Name: " +:+ n) :: post)
    None None s = Ret (Some (PyStr.strip v), Some (PyStr.strip n)) s.
Proof.
  intros Hpre Hmid Hn Hv Htn Htv.
  assert (Hsn : PyStr.split "Name: " ("Name: " +:+ n) !! 1 = Some n)
    by by apply split_after_sep.
  assert (Hsv : PyStr.split "Version: " ("Version: " +:+ v) !! 1 = Some v)
    by by apply split_after_sep.
  assert (Hpn : ∀ x, PyStr.startswith ("Name: " +:+ x) "Name:" = true)
    by reflexivity.
  assert (Hpn' : ∀ x, PyStr.startswith ("Name: " +:+ x) "Version:" = false)
    by reflexivity.
  assert (Hpv : ∀ x, PyStr.startswith ("Version: " +:+ x) "Version:" = true)
    by reflexivity.
  assert (Hpv' : ∀ x, PyStr.startswith ("Version: " +:+ x) "Name:" = false)
    by reflexivity.
  split.
  - rewrite (scan_pkg_info_skip pre _ _ _ s Hpre).
    cbn [scan_pkg_info]. rewrite Hpn, Hpn', Hsn. msteps.
    cbn [PyStr.truthy_opt]. rewrite (scan_pkg_info_skip mid _ _ _ s Hmid).
    cbn [scan_pkg_info]. rewrite Hpv, Hsv. msteps.
    cbn [PyStr.truthy_opt]. by rewrite Htn.
  - rewrite (scan_pkg_info_skip pre _ _ _ s Hpre).
    cbn [scan_pkg_info]. rewrite Hpv, Hpv', Hsv. msteps.
    cbn [PyStr.truthy_opt]. msteps.
    rewrite (scan_pkg_info_skip mid _ _ _ s Hmid).
    cbn [scan_pkg_info]. rewrite Hpn, Hpn', Hsn. msteps.
    cbn [PyStr.truthy_opt]. by rewrite Htv.
Qed.

(** The descriptor of [foo] 1.2, which goes on after the two fields. *)
Lemma scan_pkg_info_reads_name_and_version_witness :
  scan_pkg_info
    ["Metadata-Version: 2.1"; "Name: foo"; "Version: 1.2 "; "Summary: a sample";
     "Name: not this one"]
    None None (fresh_state ∅ empty_world) =
  Ret (Some "1.2", Some "foo") (fresh_state ∅ empty_world).
Proof.
  refine (proj1 (scan_pkg_info_reads_name_and_version
                   ["Metadata-Version: 2.1"] []
                   ["Summary: a sample"; "Name: not this one"]
                   "foo" "1.2 " (fresh_state ∅ empty_world)
                   _ _ eq_refl eq_refl eq_refl eq_refl)).
  - repeat constructor.
  - constructor.
Defined.





(** ** More on the import interceptor *)

(** *** What the importer leaves alone *)

Section Frame.

Context (P : State → Prop).
Hypothesis P_debug : ∀ msg, keeps P (debug msg).
Hypothesis P_flag : ∀ t b s, P s → P (set_importer (set_flag t b) s).
Hypothesis P_modules : ∀ f s, P s → P (set_modules f s).
Hypothesis P_sys_modules : ∀ f s, P s → P (set_sys_modules f s).

Ltac frame_step :=
  lazymatch goal with
  | |- keeps _ (ret _) => apply keeps_ret
  | |- keeps _ (raise _) => apply keeps_raise
  | |- keeps _ get => apply keeps_get
  | |- keeps _ (getattr _ _) => apply keeps_getattr
  | |- keeps _ (call0 _) => apply keeps_call0
  | |- keeps _ (debug _) => apply P_debug
  | |- keeps _ (except_AttributeError _ _) => apply keeps_except
  | |- keeps _ (setattr _ _ _) => apply keeps_modify; apply P_modules
  | |- keeps _ (modify (set_modules _)) => apply keeps_modify; apply P_modules
  | |- keeps _ (modify (set_sys_modules _)) =>
      apply keeps_modify; apply P_sys_modules
  | |- keeps _ (modify (set_importer (set_flag ?t ?b))) =>
      apply keeps_modify; apply (P_flag t b)
  | |- keeps _ (modify (set_importer (set_loading_sysconfig ?b))) =>
      apply keeps_modify; apply (P_flag Sysconfig b)
  | |- keeps _ (modify (set_importer (set_loading_pip_scripts ?b))) =>
      apply keeps_modify; apply (P_flag PipScripts b)
  | |- keeps _ (modify (set_importer (set_loading_op_wheel ?b))) =>
      apply keeps_modify; apply (P_flag OpWheel b)
  | |- keeps _ (modify (set_importer (set_loading_op_legacy ?b))) =>
      apply keeps_modify; apply (P_flag OpLegacy b)
  | |- keeps _ (bind _ _) => apply keeps_bind; [|intros ?]
  | |- keeps _ (if ?c then _ else _) => destruct c
  end.

Lemma keeps_frame_find_module (name : string) : keeps P (find_module name).
Proof.
  rewrite find_module_eq. destruct (target_of_name name) as [t|]; [|frame_step].
  unfold probe. repeat frame_step.
Qed.

Lemma keeps_frame_import_module (h : Host) (loader : string → M string)
    (name : string) :
  (∀ n, keeps P (loader n)) → keeps P (import_module h loader name).
Proof.
  intros Hl. unfold import_module. apply keeps_bind; [frame_step|]. intros s0.
  destruct (sys_modules s0 !! name); [frame_step|].
  apply keeps_bind.
  - destruct (bool_decide _); [apply keeps_frame_find_module|frame_step].
  - intros [|]; [apply Hl|].
    destruct (real_module h name); repeat frame_step.
Qed.

Lemma keeps_frame_load_module (h : Host) (fuel : nat) (name : string) :
  keeps P (load_module h fuel name).
Proof.
  revert name. induction fuel as [|fuel IH]; intros name; [by intros s Hs|].
  cbn [load_module].
  assert (Himp : ∀ n, keeps P (import_module h (load_module h fuel) n))
    by (intros n; by apply keeps_frame_import_module).
  apply keeps_bind.
  - repeat (lazymatch goal with
            | |- keeps _ (import_module _ _ _) => apply Himp
            | |- _ => frame_step
            end).
  - intros [m|]; repeat frame_step.
Qed.

Lemma keeps_frame_load_module_with (imp : string → M string) (name : string) :
  (∀ n, keeps P (imp n)) → keeps P (load_module_with imp name).
Proof.
  intros Hi. unfold load_module_with. apply keeps_bind.
  - repeat (lazymatch goal with
            | |- keeps _ (imp _) => apply Hi
            | |- _ => frame_step
            end).
  - intros [m|]; repeat frame_step.
Qed.

Lemma run_calls_keeps_frame (h : Host) (fuel : nat) (cs : list call)
    (s s' : State) :
  P s → run_calls h fuel cs s = Some s' → P s'.
Proof.
  revert s. induction cs as [|c cs IH]; intros s Hs; simpl.
  - by intros [= <-].
  - destruct (run_call h fuel c s) as [s1|] eqn:Hc; [|done]. simpl.
    apply IH. destruct c as [n|n|n]; simpl in Hc.
    + pose proof (keeps_frame_find_module n s Hs) as Hk.
      destruct (find_module n s); simpl in Hc; by simplify_eq.
    + pose proof (keeps_frame_load_module h fuel n s Hs) as Hk.
      destruct (load_module h fuel n s); simpl in Hc; by simplify_eq.
    + pose proof (keeps_frame_import_module h (load_module h fuel) n
                    (keeps_frame_load_module h fuel) s Hs) as Hk.
      destruct (import_module h (load_module h fuel) n s); simpl in Hc;
        by simplify_eq.
Qed.

End Frame.

Lemma load_module_S (h : Host) (fuel : nat) (name : string) :
  load_module h (S fuel) name =
  load_module_with (import_module h (load_module h fuel)) name.
Proof. reflexivity. Qed.

Lemma keeps_settings_debug (s0 : State) (msg : string) :
  keeps (fun x => process_settings x = process_settings s0) (debug msg).
Proof. by apply keeps_debug. Qed.

Lemma keeps_settings_flag (s0 : State) (t : target) (b : bool) (s : State) :
  process_settings s = process_settings s0 →
  process_settings (set_importer (set_flag t b) s) = process_settings s0.
Proof. intros <-. by destruct t. Qed.

(** X16. The statements of the importer write none of the process
    settings outside it: neither the environment, the working directory,
    the prefixes, [sys.path] and [sys.meta_path], nor the flag
    [loading_sysconfig_data] of the class.  [find_module] keeps them,
    returning or not; [load_module] keeps them, returning or raising,
    whenever the import it delegates to keeps them.  What the code of the
    imported module does during that import is the module's, not the
    importer's, and is not limited by this. *)
Theorem importer_calls_leave_process_settings (imp : string → M string)
    (name : string) (s0 : State) :
  (∀ n, keeps (fun x => process_settings x = process_settings s0) (imp n)) →
  keeps (fun x => process_settings x = process_settings s0)
    (find_module name) ∧
  keeps (fun x => process_settings x = process_settings s0)
    (load_module_with imp name).
Proof.
  intros Hi. split.
  - apply keeps_frame_find_module; try done.
    + apply keeps_settings_debug.
    + apply keeps_settings_flag.
  - apply keeps_frame_load_module_with; try done.
    + apply keeps_settings_debug.
    + apply keeps_settings_flag.
Qed.

(** A load of the wheel installer whose import builds the module and does
    nothing else. *)
Lemma importer_calls_leave_process_settings_witness :
  let s := booted_state {["RELENV_DEBUG" := "1"]} empty_world in
  ∃ s', final_state
          (load_module_with (import_module unix_host no_loader) wheel_name s) =
        Some s' ∧
        process_settings s' = process_settings s.
Proof.
  intros s.
  assert (Hi : ∀ n, keeps (fun x => process_settings x = process_settings s)
                      (import_module unix_host no_loader n)).
  { intros n. apply keeps_frame_import_module; try done.
    - apply keeps_settings_debug.
    - apply keeps_settings_flag.
    - intros n'. apply keeps_raise. }
  pose proof (proj2 (importer_calls_leave_process_settings
                       (import_module unix_host no_loader) wheel_name s Hi)
                s eq_refl) as Hk.
  destruct (load_module_with (import_module unix_host no_loader) wheel_name s)
    as [m s'|e s'|] eqn:E.
  - by exists s'.
  - by exists s'.
  - vm_compute in E. discriminate E.
Defined.

(** X17. The importer talks through [debug] only.  Over any sequence of
    probes, loads and imports the trace grows by printed lines alone: no
    subprocess is spawned and nothing is relocated; and when
    [RELENV_DEBUG] is unset or empty not even a line is printed. *)
Theorem importer_prints_only_in_debug_mode (h : Host) (fuel : nat)
    (cs : list call) (s s' : State) :
  run_calls h fuel cs s = Some s' →
  ∃ lines, trace s' = trace s ++ (EvPrint <$> lines) ∧
           (PyStr.truthy_opt (environ s !! "RELENV_DEBUG") = false →
            lines = []).
Proof.
  intros Hrun.
  pose (P := fun x : State =>
    environ x = environ s ∧
    ∃ lines, trace x = trace s ++ (EvPrint <$> lines) ∧
             (PyStr.truthy_opt (environ s !! "RELENV_DEBUG") = false →
              lines = [])).
  assert (HP : P s').
  { apply (run_calls_keeps_frame P) with (h := h) (fuel := fuel) (cs := cs)
                                          (s := s); [..|exact Hrun].
    - intros msg x (He & lines & Ht & Hoff). rewrite debug_eq.
      unfold after_debug. rewrite He.
      destruct (PyStr.truthy_opt (environ s !! "RELENV_DEBUG")) eqn:Hd.
      + split; [exact He|]. exists (lines ++ [msg]). split; [|done].
        cbn [trace emit]. by rewrite Ht, fmap_app, app_assoc.
      + split; [exact He|]. by exists lines.
    - intros t b x HPx. exact HPx.
    - intros f x HPx. exact HPx.
    - intros f x HPx. exact HPx.
    - split; [done|]. exists []. by rewrite app_nil_r. }
  destruct HP as (_ & lines & Ht & Hoff). by exists lines.
Qed.

Lemma importer_prints_only_in_debug_mode_witness :
  let s := booted_state ∅ empty_world in
  ∃ s', run_calls unix_host 2 [Import wheel_name; Import "sysconfig"; Load "os"] s =
        Some s' ∧ trace s' = [].
Proof.
  intros s.
  destruct (run_calls unix_host 2
              [Import wheel_name; Import "sysconfig"; Load "os"] s)
    as [s'|] eqn:E.
  - exists s'. split; [reflexivity|].
    destruct (importer_prints_only_in_debug_mode unix_host 2 _ s s' E)
      as (lines & Ht & Hoff).
    rewrite Ht, (Hoff eq_refl). reflexivity.
  - vm_compute in E. discriminate E.
Defined.

(** *** Failures of [load_module] *)


(** X18. [load_module] called with a name that is none of the five
    targets raises [UnboundLocalError] for its variable [mod]: no arm
    assigns it.  Nothing is imported, printed or registered. *)
Theorem load_module_unknown_name (h : Host) (fuel : nat) (name : string)
    (s : State) :
  target_of_name name = None →
  load_module h (S fuel) name s = Raise (UnboundLocalError "mod") s.
Proof.
  unfold target_of_name. intros Ht. cbn [load_module].
  repeat (match type of Ht with
          | context [if ?c then _ else _] => destruct c; [discriminate Ht|]
          end).
  reflexivity.
Qed.

Lemma load_module_unknown_name_witness :
  load_module unix_host 1 "os" (booted_state ∅ empty_world) =
  Raise (UnboundLocalError "mod") (booted_state ∅ empty_world).
Proof.
  exact (load_module_unknown_name unix_host 0 "os"
           (booted_state ∅ empty_world) eq_refl).
Defined.

(** After its debug line, [load_module] starts with the import of the
    target's module; when that import raises, so does [load_module], in
    the state the import left. *)
Lemma load_module_import_raises (imp : string → M string) (t : target)
    (name : string) (s s' : State) (e : exn) :
  target_of_name name = Some t →
  imp (imported_name t name) (after_debug (load_line name) s) = Raise e s' →
  load_module_with imp name s = Raise e s'.
Proof.
  unfold target_of_name, load_line. intros Ht Hi. unfold load_module_with.
  repeat (match type of Ht with
          | context [if ?c then _ else _] => destruct c
          end;
          [injection Ht as <-; cbn [imported_name] in Hi;
           apply bind_Raise; msteps; by apply bind_Raise|]).
  done.
Qed.



(** X20. The patch of the configuration module is not applied as a
    whole.  When the module has neither [get_default_scheme] nor
    [_get_default_scheme], the [AttributeError] for the second name
    escapes from [load_module] after [get_config_var] was wrapped and
    [_PIP_USE_SYSCONFIG] set: the module is left with these two changes,
    [get_paths] is not wrapped, the flag is not cleared and the name is
    not registered. *)
Theorem sysconfig_patch_is_not_atomic (h : Host) (fuel : nat) (name m : string)
    (s si : State) (o : gmap string value) (f : value) :
  PyStr.startswith name "sysconfig" = true →
  import_module h (load_module h fuel) "sysconfig"
    (after_debug (load_line name) s) = Ret m si →
  modules si !! m = Some o →
  o !! "get_config_var" = Some f →
  o !! "get_default_scheme" = None →
  o !! "_get_default_scheme" = None →
  let o' := <["_PIP_USE_SYSCONFIG" := VBool true]>
              (<["get_config_var" := GetConfigVarWrapped f]> o) in
  load_module h (S fuel) name s =
    Raise (AttributeError "_get_default_scheme") (with_module m o' si) ∧
  o' !! "get_config_var" = Some (GetConfigVarWrapped f) ∧
  o' !! "get_paths" = o !! "get_paths" ∧
  importer (with_module m o' si) = importer si ∧
  sys_modules (with_module m o' si) = sys_modules si.
Proof.
  intros Hn Himp Hm Hf Hg1 Hg2 o'.
  split.
  2:{ unfold o'. repeat split.
      - by rewrite lookup_insert_ne, lookup_insert_eq.
      - by rewrite !lookup_insert_ne. }
  cbn [load_module]. rewrite Hn. apply bind_Raise.
  msteps. unfold load_line in Himp. rewrite (bind_Ret _ _ _ _ _ Himp).
  attr_get Hm Hf. attr_set Hm.
  attr_set (with_module_lookup m (<["get_config_var" := GetConfigVarWrapped f]> o) si).
  rewrite with_module_twice. fold o'.
  assert (Ho1 : o' !! "get_default_scheme" = None)
    by (unfold o'; by rewrite !lookup_insert_ne).
  assert (Ho2 : o' !! "_get_default_scheme" = None)
    by (unfold o'; by rewrite !lookup_insert_ne).
  apply bind_Raise. unfold except_AttributeError.
  rewrite (bind_Raise _ _ _ _ _
             (getattr_missing _ _ _ _ (with_module_lookup m o' si) Ho1)).
  by rewrite (bind_Raise _ _ _ _ _
                (getattr_missing _ _ _ _ (with_module_lookup m o' si) Ho2)).
Qed.

Lemma sysconfig_patch_is_not_atomic_witness :
  let s := probed Sysconfig "sysconfig" (booted_state ∅ empty_world) in
  ∃ s', load_module host_without_scheme 1 "sysconfig" s =
          Raise (AttributeError "_get_default_scheme") s' ∧
        module_attr s' "sysconfig" "get_config_var" =
          Some (GetConfigVarWrapped (HostFn "sysconfig.get_config_var")) ∧
        module_attr s' "sysconfig" "get_paths" =
          Some (HostFn "sysconfig.get_paths") ∧
        loading_sysconfig (importer s') = true.
Proof.
  intros s.
  pose proof (sysconfig_patch_is_not_atomic host_without_scheme 0 "sysconfig"
                "sysconfig" s _
                (<["get_config_var" := HostFn "sysconfig.get_config_var"]>
                 (<["get_paths" := HostFn "sysconfig.get_paths"]> ∅))
                (HostFn "sysconfig.get_config_var")
                eq_refl eq_refl eq_refl eq_refl eq_refl eq_refl) as H.
  cbv zeta in H. destruct H as (Hrun & _).
  eexists. split; [exact Hrun|]. repeat split; reflexivity.
Defined.

(** *** The import performed by [load_module] *)

Lemma bind_ext_l {A B : Type} (m1 m2 : M A) (k : A → M B) (s : State) :
  m1 s = m2 s → bind m1 k s = bind m2 k s.
Proof. unfold bind. by intros ->. Qed.

(** [load_module] depends on its import only through the one import it
    performs. *)
Lemma load_module_with_ext (imp1 imp2 : string → M string) (name : string)
    (s : State) :
  (∀ t, target_of_name name = Some t →
        imp1 (imported_name t name) (after_debug (load_line name) s) =
        imp2 (imported_name t name) (after_debug (load_line name) s)) →
  load_module_with imp1 name s = load_module_with imp2 name s.
Proof.
  unfold target_of_name, load_line, load_module_with. intros H.
  repeat (match type of H with
          | context [if ?c then _ else _] => destruct c
          end;
          [specialize (H _ eq_refl); cbn [imported_name] in H;
           apply bind_ext_l; msteps; by apply bind_ext_l|]).
  done.
Qed.

(** X21. [load_module] consults the import system once.  After its debug
    line it imports [sysconfig] for a name that starts with [sysconfig],
    the name itself for the four other targets, and nothing for any other
    name; its outcome depends on the import system through that one call
    alone.  When that import raises, [load_module] raises the same
    exception in the state the import left: nothing is patched, no flag
    is cleared and the name is not registered. *)
Theorem load_module_imports_once (imp1 imp2 : string → M string)
    (name : string) (s : State) :
  (∀ t, target_of_name name = Some t →
        imp1 (imported_name t name) (after_debug (load_line name) s) =
        imp2 (imported_name t name) (after_debug (load_line name) s)) →
  load_module_with imp1 name s = load_module_with imp2 name s ∧
  (∀ t e s', target_of_name name = Some t →
     imp1 (imported_name t name) (after_debug (load_line name) s) = Raise e s' →
     load_module_with imp1 name s = Raise e s' ∧
     load_module_with imp2 name s = Raise e s').
Proof.
  intros H. split; [by apply load_module_with_ext|].
  intros t e s' Ht Hr. split.
  - by apply (load_module_import_raises imp1 t).
  - apply (load_module_import_raises imp2 t); [done|]. by rewrite <- (H t Ht).
Qed.

(** Two import systems that differ on every module but [sysconfig]. *)
Lemma load_module_imports_once_witness :
  let s := booted_state ∅ empty_world in
  load_module_with (import_module unix_host no_loader) "sysconfig_extras" s =
  load_module_with
    (fun n => if String.eqb n "sysconfig"
              then import_module unix_host no_loader n
              else raise (ModuleNotFoundError n))
    "sysconfig_extras" s.
Proof.
  intros s.
  refine (proj1 (load_module_imports_once (import_module unix_host no_loader)
                   (fun n => if String.eqb n "sysconfig"
                             then import_module unix_host no_loader n
                             else raise (ModuleNotFoundError n))
                   "sysconfig_extras" s _)).
  intros t Ht. injection Ht as <-. reflexivity.
Defined.

(** *** Imports after the first *)

Lemma bind_inv_Ret {A B : Type} (m : M A) (k : A → M B) (s s' : State) (b : B) :
  bind m k s = Ret b s' → ∃ a s1, m s = Ret a s1 ∧ k a s1 = Ret b s'.
Proof.
  unfold bind. destruct (m s) as [a s1|e s1|]; [|done..].
  intros Hk. by exists a, s1.
Qed.

(** [load_module] returns the module it registered under the name. *)
Lemma load_module_registers (h : Host) (fuel : nat) (name m : string)
    (s s' : State) :
  load_module h fuel name s = Ret m s' → sys_modules s' !! name = Some m.
Proof.
  destruct fuel as [|fuel]; [done|]. rewrite load_module_S.
  unfold load_module_with. intros H.
  apply bind_inv_Ret in H as ([m0|] & s1 & _ & Hk); [|done].
  rewrite bind_modify in Hk. injection Hk as <- <-.
  cbn [sys_modules set_sys_modules]. apply lookup_insert_eq.
Qed.

(** X22. Once an import of a name has returned, importing the name again
    returns the same module object and changes nothing: the answer comes
    from [sys.modules], the importer is not asked and no patch is applied
    again. *)
Theorem import_module_second_time_is_cached (h : Host) (fuel : nat)
    (name m : string) (s s' : State) :
  import_module h (load_module h fuel) name s = Ret m s' →
  sys_modules s' !! name = Some m ∧
  ∀ loader, import_module h loader name s' = Ret m s'.
Proof.
  intros H.
  assert (Hreg : sys_modules s' !! name = Some m).
  { unfold import_module in H. rewrite bind_get in H.
    destruct (sys_modules s !! name) as [m'|] eqn:Hc.
    - by injection H as <- <-.
    - apply bind_inv_Ret in H as ([|] & s1 & _ & Hk).
      + by apply (load_module_registers h fuel name m s1).
      + destruct (real_module h name); [|done]. rewrite !bind_modify in Hk.
        injection Hk as <- <-. cbn [sys_modules set_sys_modules set_modules].
        apply lookup_insert_eq. }
  split; [exact Hreg|]. intros loader. by apply import_module_cached.
Qed.

Lemma import_module_second_time_is_cached_witness :
  let s := booted_state ∅ empty_world in
  ∃ m s', import_module unix_host (load_module unix_host 2) wheel_name s =
            Ret m s' ∧
          import_module unix_host (load_module unix_host 2) wheel_name s' =
            Ret m s'.
Proof.
  intros s.
  destruct (import_module unix_host (load_module unix_host 2) wheel_name s)
    as [m s'|e s'|] eqn:E.
  - exists m, s'. split; [reflexivity|].
    exact (proj2 (import_module_second_time_is_cached unix_host 2 wheel_name
                    m s s' E) _).
  - vm_compute in E. discriminate E.
  - vm_compute in E. discriminate E.
Defined.



(** ** More on [bootstrap] *)

Lemma after_debug_interpreter_frame (msg : string) (s : State) :
  interpreter_frame (after_debug msg s) = interpreter_frame s.
Proof. unfold after_debug. by destruct (PyStr.truthy_opt _). Qed.

(** The cross-target step always returns, and writes the two prefixes and
    [sys.path] only. *)
Lemma bootstrap_cross_eq (h : Host) (s : State) :
  ∃ s1, bootstrap_cross h s = Ret tt s1 ∧
        environ s1 = environ s ∧ trace s1 = trace s ∧
        cwd s1 = cwd s ∧ world s1 = world s ∧
        sys_meta_path s1 = sys_meta_path s ∧
        sys_modules s1 = sys_modules s ∧ modules s1 = modules s ∧
        importer s1 = importer s ∧
        match cross_root s with
        | Some root =>
            sys_prefix s1 = Pathlib.str root ∧
            sys_exec_prefix s1 = Pathlib.str root ∧
            sys_path s1 =
              [Pathlib.str (cross_libdir h root);
               Pathlib.str (cross_libdir h root </> "lib-dynload");
               Pathlib.str (cross_libdir h root </> "site-packages")]
              ++ filter (fun x => ¬ Is_true (PyStr.contains "site-packages" x))
                   (sys_path s)
        | None =>
            sys_prefix s1 = sys_prefix s ∧
            sys_exec_prefix s1 = sys_exec_prefix s ∧
            sys_path s1 = sys_path s
        end.
Proof.
  unfold bootstrap_cross, cross_root, cross_libdir. rewrite bind_get.
  destruct (PyStr.truthy (default "" (environ s !! "RELENV_CROSS"))).
  - msteps. eexists. split; [reflexivity|]. by repeat split.
  - eexists. split; [reflexivity|]. by repeat split.
Qed.

(** The trust-store step returns or raises [ValueError]; it writes the
    two trust-store variables and the trace only. *)
Lemma bootstrap_openssl_outcomes (h : Host) (s : State) :
  ∃ s2, (bootstrap_openssl h s = Ret tt s2 ∨
         bootstrap_openssl h s = Raise ValueError s2) ∧
        interpreter_frame s2 = interpreter_frame s ∧
        ∀ k, k ≠ "SSL_CERT_DIR" → k ≠ "SSL_CERT_FILE" →
             environ s2 !! k = environ s !! k.
Proof.
  unfold bootstrap_openssl. rewrite bind_get.
  destruct (bool_decide (environ s !! "SSL_CERT_DIR" = None)
            && negb (String.eqb (sys_platform h) "win32"));
    [|exists s; by auto].
  destruct (negb (PyStr.truthy_opt (w_which (world s) "openssl"))).
  { rewrite debug_eq. eexists. split; [by left|].
    by rewrite after_debug_interpreter_frame, after_debug_environ. }
  msteps.
  destruct (w_run (world s) _) as [[returncode stdout] stderr].
  destruct (negb (returncode =? 0)%Z).
  { rewrite debug_eq. eexists. split; [by left|].
    by rewrite after_debug_interpreter_frame, after_debug_environ. }
  destruct (PyStr.split ":" stdout) as [|x [|directory [|z l]]];
    try by (eexists; split; [by right|by split]).
  msteps.
  set (s1 := emit _ s).
  destruct (negb (PyStr.truthy_opt (environ s1 !! "SSL_CERT_DIR"))).
  - msteps.
    match goal with
    | |- context [if ?c then _ else _] => destruct c
    end.
    + eexists. split; [by left|]. split; [done|].
      intros k Hk1 Hk2. cbn [environ set_environ]. by rewrite !lookup_insert_ne.
    + eexists. split; [by left|]. split; [done|].
      intros k Hk1 Hk2. cbn [environ set_environ]. by rewrite !lookup_insert_ne.
  - msteps.
    match goal with
    | |- context [if ?c then _ else _] => destruct c
    end.
    + eexists. split; [by left|]. split; [done|].
      intros k Hk1 Hk2. cbn [environ set_environ]. by rewrite !lookup_insert_ne.
    + eexists. split; [by left|]. by split.
Qed.

(** X24. The importer is installed by the last statements of
    [bootstrap].  When [bootstrap] returns, the importer, with every flag
    clear, is the first entry of [sys.meta_path], before the finders that
    were there; when it raises, [sys.meta_path] and the importer are as
    they were.  The modules are untouched either way. *)
Theorem bootstrap_installs_importer_first (h : Host) (s s' : State) :
  (bootstrap h s = Ret tt s' →
   sys_meta_path s' = RelenvFinder :: sys_meta_path s ∧
   importer s' = new_importer ∧
   sys_modules s' = sys_modules s ∧ modules s' = modules s) ∧
  (∀ e, bootstrap h s = Raise e s' →
   sys_meta_path s' = sys_meta_path s ∧
   importer s' = importer s ∧
   sys_modules s' = sys_modules s ∧ modules s' = modules s).
Proof.
  destruct (bootstrap_cross_eq h s)
    as (s1 & Hc & _ & _ & Hcwd & Hw & Hmp & Hsm & Hm & Hi & _).
  destruct (bootstrap_openssl_outcomes h s1) as (s2 & Ho & Hfr & _).
  unfold interpreter_frame in Hfr. injection Hfr as _ _ _ _ _ Hmp2 Hsm2 Hm2 Hi2.
  unfold bootstrap. rewrite (bind_Ret _ _ _ _ _ Hc).
  destruct Ho as [Ho|Ho].
  - rewrite (bind_Ret _ _ _ _ _ Ho). msteps. split; [|done].
    intros [= <-].
    cbn [sys_meta_path sys_modules modules importer set_sys_meta_path
         set_importer].
    repeat split; congruence.
  - rewrite (bind_Raise _ _ _ _ _ Ho). split; [done|].
    intros e [= <- <-]. repeat split; congruence.
Qed.

(** A return on a machine without [openssl], and a [ValueError] on one
    whose [openssl] reports a directory with a colon. *)
Lemma bootstrap_installs_importer_first_witness :
  (∃ s', bootstrap unix_host (fresh_state ∅ empty_world) = Ret tt s' ∧
         sys_meta_path s' = [RelenvFinder; HostFinder "PathFinder"]) ∧
  (∃ e s', bootstrap unix_host
             (fresh_state ∅ (openssl_world 0 openssl_dir_line_colon true)) =
           Raise e s' ∧
           sys_meta_path s' = [HostFinder "PathFinder"]).
Proof.
  split.
  - destruct (bootstrap unix_host (fresh_state ∅ empty_world))
      as [[] s'|e s'|] eqn:E.
    + exists s'. split; [reflexivity|].
      exact (proj1 (proj1 (bootstrap_installs_importer_first unix_host _ s') E)).
    + vm_compute in E. discriminate E.
    + vm_compute in E. discriminate E.
  - destruct (bootstrap unix_host
                (fresh_state ∅ (openssl_world 0 openssl_dir_line_colon true)))
      as [[] s'|e s'|] eqn:E.
    + vm_compute in E. discriminate E.
    + exists e, s'. split; [reflexivity|].
      exact (proj1 (proj2 (bootstrap_installs_importer_first unix_host _ s') e E)).
    + vm_compute in E. discriminate E.
Defined.

(** X25. Of the environment, [bootstrap] writes the two trust-store
    variables only: whether it returns or raises, every other variable
    has the value it had, and a variable that was unset stays unset. *)
Theorem bootstrap_writes_only_trust_store_variables (h : Host) (s : State) :
  ∃ s', final_state (bootstrap h s) = Some s' ∧
        ∀ k, k ≠ "SSL_CERT_DIR" → k ≠ "SSL_CERT_FILE" →
             environ s' !! k = environ s !! k.
Proof.
  destruct (bootstrap_cross_eq h s) as (s1 & Hc & He & _).
  destruct (bootstrap_openssl_outcomes h s1) as (s2 & Ho & _ & Hk).
  unfold bootstrap. rewrite (bind_Ret _ _ _ _ _ Hc).
  destruct Ho as [Ho|Ho].
  - rewrite (bind_Ret _ _ _ _ _ Ho). msteps. eexists. split; [reflexivity|].
    intros k Hk1 Hk2. cbn [environ set_sys_meta_path set_importer].
    rewrite <- He. by apply Hk.
  - rewrite (bind_Raise _ _ _ _ _ Ho). eexists. split; [reflexivity|].
    intros k Hk1 Hk2. rewrite <- He. by apply Hk.
Qed.







(** ** The version text and the layout of the tree *)

Lemma all_chars_app (f : ascii → bool) (a b : string) :
  all_chars f (a +:+ b) = all_chars f a && all_chars f b.
Proof.
  induction a as [|c a IH]; [done|].
  change (String c a +:+ b) with (String c (a +:+ b)). cbn [all_chars].
  by rewrite IH, andb_assoc.
Qed.

Lemma all_chars_impl (f g : ascii → bool) (s : string) :
  (∀ c, f c = true → g c = true) →
  all_chars f s = true → all_chars g s = true.
Proof.
  intros Hfg. induction s as [|c s IH]; [done|]. cbn [all_chars].
  rewrite !andb_true_iff. intros [Hc Hs]. split; [by apply Hfg|by apply IH].
Qed.

Lemma is_digit_ne (c x : ascii) :
  is_digit x = false → is_digit c = true → negb (Ascii.eqb c x) = true.
Proof.
  intros Hx Hc. destruct (Ascii.eqb_spec c x) as [->|]; [congruence|done].
Qed.

Lemma not_contains_char (x : ascii) (s : string) :
  all_chars (fun c => negb (Ascii.eqb c x)) s = true →
  PyStr.contains (String x "") s = false.
Proof.
  induction s as [|c s IH]; [done|]. cbn [all_chars PyStr.contains String.prefix].
  rewrite andb_true_iff. intros [Hc Hs]. rewrite (IH Hs), orb_false_r.
  destruct (Ascii.ascii_dec x c) as [->|]; [|done].
  by rewrite Ascii.eqb_refl in Hc.
Qed.

Lemma pretty_N_char_digit (x : N) : is_digit (pretty_N_char x) = true.
Proof. unfold pretty_N_char. by repeat case_match. Qed.

Lemma pretty_N_go_digits (x : N) (s : string) :
  all_chars is_digit s = true → all_chars is_digit (pretty_N_go x s) = true.
Proof.
  revert s. induction (N.lt_wf_0 x) as [x _ IH]; intros s Hs.
  assert (x = 0 ∨ 0 < x)%N as [->|Hx] by lia.
  - by rewrite pretty_N_go_0.
  - rewrite pretty_N_go_step by done. apply IH.
    + by apply N.div_lt.
    + cbn [all_chars]. by rewrite pretty_N_char_digit.
Qed.

Lemma pretty_nat_digits (n : nat) : all_chars is_digit (pretty n) = true.
Proof.
  unfold pretty, pretty_nat, pretty, pretty_N.
  destruct (decide (N.of_nat n = 0%N)); [done|]. by apply pretty_N_go_digits.
Qed.

Lemma append_nil_l (b : string) : "" +:+ b = b.
Proof. reflexivity. Qed.

Lemma append_cons_l (c : ascii) (a b : string) :
  String c a +:+ b = String c (a +:+ b).
Proof. reflexivity. Qed.

(** Two texts [a.b] with no dot in [a] are equal only field by field. *)
Lemma dotted_inj (a a' b b' : string) :
  all_chars (fun c => negb (Ascii.eqb c ".")) a = true →
  all_chars (fun c => negb (Ascii.eqb c ".")) a' = true →
  a +:+ "." +:+ b = a' +:+ "." +:+ b' → a = a' ∧ b = b'.
Proof.
  revert a'. induction a as [|c a IH]; intros [|c' a'] Ha Ha';
    rewrite ?append_cons_l, ?append_nil_l; cbn [all_chars] in Ha, Ha'.
  - by intros [= ->].
  - intros [= <- _]. done.
  - intros [= -> _]. done.
  - apply andb_true_iff in Ha as [_ Ha]. apply andb_true_iff in Ha' as [_ Ha'].
    intros [= -> H]. destruct (IH a' Ha Ha' H) as [-> ->]. done.
Qed.

(** X29. The version text ["{}.{}".format( *sys.version_info)] tells the
    versions apart: two hosts have the same text exactly when they have
    the same major and minor number, so [3.1] and [3.10], or [3.11] and
    [31.1], never share a version-specific site directory. *)
Theorem get_major_version_injective (h1 h2 : Host) :
  get_major_version h1 = get_major_version h2 ↔
  version_info h1 = version_info h2.
Proof.
  split; [|unfold get_major_version; by intros ->].
  unfold get_major_version. intros H.
  assert (Hnd : ∀ n : nat,
            all_chars (fun c => negb (Ascii.eqb c ".")) (pretty n) = true).
  { intros n. apply (all_chars_impl is_digit); [|apply pretty_nat_digits].
    intros c. by apply is_digit_ne. }
  apply dotted_inj in H as [Ha Hb]; [|apply Hnd..].
  apply (inj pretty) in Ha. apply (inj pretty) in Hb.
  destruct (version_info h1), (version_info h2). simpl in *. congruence.
Qed.

Lemma get_major_version_injective_witness :
  get_major_version (host_of_version (3, 10)) = "3.10" ∧
  get_major_version (host_of_version (3, 1)) ≠
    get_major_version (host_of_version (3, 10)) ∧
  get_major_version (host_of_version (3, 11)) ≠
    get_major_version (host_of_version (31, 1)).
Proof.
  split; [reflexivity|]. split.
  - intros H.
    apply (proj1 (get_major_version_injective _ _)) in H. discriminate H.
  - intros H.
    apply (proj1 (get_major_version_injective _ _)) in H. discriminate H.
Defined.

Lemma parent_join_single (p : Path) (x : string) :
  Pathlib.of_str x = Pathlib.mkPath "" [x] → Pathlib.parent (p </> x) = p.
Proof.
  intros Hx. unfold Pathlib.join, Pathlib.joinpath, Pathlib.parent. rewrite Hx.
  cbn [Pathlib.anchor Pathlib.parts PyStr.truthy].
  destruct p as [a l]. cbn [Pathlib.anchor Pathlib.parts].
  destruct (l ++ [x]) eqn:E; [by destruct l|].
  rewrite <- E. by rewrite removelast_last.
Qed.

(** The directory name [pythonX.Y] is one path component. *)
Lemma of_str_pyver (h : Host) :
  Pathlib.of_str ("python" +:+ get_major_version h) =
  Pathlib.mkPath "" ["python" +:+ get_major_version h].
Proof.
  unfold Pathlib.of_str.
  assert (Hc : PyStr.contains "/" ("python" +:+ get_major_version h) = false).
  { apply not_contains_char. unfold get_major_version.
    rewrite !all_chars_app.
    assert (Hns : ∀ n : nat,
              all_chars (fun c => negb (Ascii.eqb c "/")) (pretty n) = true).
    { intros n. apply (all_chars_impl is_digit); [|apply pretty_nat_digits].
      intros c. by apply is_digit_ne. }
    by rewrite !Hns. }
  rewrite (split_no_sep _ _ Hc). reflexivity.
Qed.

(** X30. The ascent of [relenv_root] undoes the layout of the tree: with
    the module in [<prefix>\Lib\site-packages\relenv] on win32 (where the
    windows build lays it down), or in
    [<prefix>/lib/pythonX.Y/site-packages/relenv] elsewhere, the root is
    [<prefix>], for every prefix.  On the second layout the
    version-specific site directory the legacy wrapper searches for the
    prefix [<prefix>] is the directory the module itself is in. *)
Theorem relenv_root_recovers_prefix (h : Host) (prefix : Path) :
  (sys_platform h = "win32" →
   MODULE_DIR h = prefix </> "Lib" </> "site-packages" </> "relenv" →
   relenv_root h = prefix) ∧
  (sys_platform h ≠ "win32" →
   MODULE_DIR h =
     prefix </> "lib" </> ("python" +:+ get_major_version h)
       </> "site-packages" </> "relenv" →
   relenv_root h = prefix ∧
   ∀ a x, la_prefix a = Some x → Pathlib.of_str x = prefix →
          legacy_sitepack h a = Pathlib.parent (MODULE_DIR h)).
Proof.
  split.
  - intros Hw Hm. rewrite (relenv_root_win32 h Hw), Hm.
    by rewrite !parent_join_single.
  - intros Hw Hm. split.
    + rewrite (relenv_root_other h Hw), Hm.
      rewrite !parent_join_single; first [done|apply of_str_pyver].
    + intros a x Ha Hx. unfold legacy_sitepack. rewrite Ha, Hm.
      change (default "" (Some x)) with x.
      rewrite Hx. by rewrite parent_join_single.
Qed.

Lemma relenv_root_recovers_prefix_witness :
  relenv_root unix_host = Pathlib.of_str "/opt/relenv" ∧
  relenv_root windows_host = Pathlib.mkPath "C:\" ["relenv"].
Proof.
  split.
  - assert (Hne : sys_platform unix_host ≠ "win32") by discriminate.
    exact (proj1 (proj2 (relenv_root_recovers_prefix unix_host
                           (Pathlib.of_str "/opt/relenv")) Hne eq_refl)).
  - exact (proj1 (relenv_root_recovers_prefix windows_host
                    (Pathlib.mkPath "C:\" ["relenv"])) eq_refl eq_refl).
Defined.
